(** * The earnings ledger of the reward bot

    A shallow embedding of the [Database] class of [bot.py]: the six SQLite
    tables the ledger reads and writes, and one function per method, named
    as in the source.

    - A [REAL] cell and a Python [float] are both IEEE 754 binary64 values:
      they are primitive floats here, and [+], [-], [<], [>=] are the
      binary64 operations SQLite and Python perform.  SQLite keeps no NaN:
      it stores one as [NULL].  A NaN in a cell of the model is that [NULL].
    - An [INTEGER] cell and a Python [int] are [Z].
    - A [TEXT] cell is a [string].  The [value] column of [settings] is the
      exception: every reader applies [float()] to it, so the cell holds
      what [float()] makes of its text, a number or a [ValueError].
    - Timestamps are whole seconds on one clock; [CURRENT_TIMESTAMP],
      [datetime.datetime.now()] and [datetime.date.today()] are arguments.
      Columns that only record a creation time and are never read by the
      ledger ([joined_date], [earned_at], [requested_at], [created_at]) are
      left out.
    - A table is the list of its rows in insertion order. *)

From Stdlib Require Import ZArith List Ascii String Bool Lia Floats DecimalString.
From stdpp Require Import gmap strings.
Import ListNotations.

Set Warnings "-inexact-float".
Local Open Scope string_scope.
Local Open Scope Z_scope.

(** ** Configuration *)

(** [class Config]: the values read from the environment when the module is
    imported.  They never change afterwards. *)
Record Config := {
  AD_EARNING_RATE : float;
  REFERRAL_BONUS : float;
  MINIMUM_WITHDRAWAL : float;
  DAILY_EARNING_LIMIT : float;
  AD_COOLDOWN_SECONDS : Z;
  MAX_ADS_PER_DAY : Z
}.

(** The defaults of [os.getenv]. *)
Definition default_Config : Config := {|
  AD_EARNING_RATE := 5.0%float;
  REFERRAL_BONUS := 10.0%float;
  MINIMUM_WITHDRAWAL := 100.0%float;
  DAILY_EARNING_LIMIT := 50.0%float;
  AD_COOLDOWN_SECONDS := 60;
  MAX_ADS_PER_DAY := 10
|}.

(** ** Python values *)

(** [str(n)] for an [int]. *)
Definition str (n : Z) : string := NilZero.string_of_int (Z.to_int n).

(** [float(n)] for an [int]; it is what a comparison of an [int] with a
    [float] uses.  Exact below 2^53, which covers every counter here. *)
Definition float_of_int (n : Z) : float :=
  match n with
  | Z0 => 0%float
  | Zpos _ => PrimFloat.of_uint63 (Uint63.of_Z n)
  | Zneg _ => PrimFloat.opp (PrimFloat.of_uint63 (Uint63.of_Z (- n)))
  end.

(** [NULL] in a [REAL] cell.  A NaN that is bound to a statement, or that an
    expression yields, is stored by SQLite as [NULL], and [NULL] goes
    through [+] and [-] as a NaN does.  Python reads it as [None]. *)
Definition is_NULL (x : float) : bool := PrimFloat.is_nan x.

(** Truth value of an [Optional[int]]: [None] and [0] are false. *)
Definition truthy (o : option Z) : bool :=
  match o with
  | Some n => negb (n =? 0)
  | None => false
  end.

(** A number that is either an [int] or a [float], as a [SUM] read through
    [COALESCE(.., 0)] is. *)
Inductive number :=
  | Int (n : Z)
  | Float (x : float).

(** ** Tables *)

Module users.
Record row := {
  id : Z;
  telegram_id : Z;
  username : string;
  referral_code : string;
  referred_by : option Z;
  balance : float;
  total_earned : float;
  total_withdrawn : float;
  is_banned : Z
}.

(** [SET balance = balance + ?, total_earned = total_earned + ?] *)
Definition credit (amount : float) (u : row) : row :=
  {| id := id u; telegram_id := telegram_id u; username := username u;
     referral_code := referral_code u; referred_by := referred_by u;
     balance := (balance u + amount)%float;
     total_earned := (total_earned u + amount)%float;
     total_withdrawn := total_withdrawn u; is_banned := is_banned u |}.

(** [SET balance = f(balance)] *)
Definition set_balance (b : float) (u : row) : row :=
  {| id := id u; telegram_id := telegram_id u; username := username u;
     referral_code := referral_code u; referred_by := referred_by u;
     balance := b; total_earned := total_earned u;
     total_withdrawn := total_withdrawn u; is_banned := is_banned u |}.
End users.

Module earnings.
Record row := {
  id : Z;
  user_id : Z;
  amount : float;
  type : string;
  description : string
}.
End earnings.

Module withdrawals.
Record row := {
  id : Z;
  user_id : Z;
  amount : float;
  method : string;
  mobile_number : string;
  status : string;
  transaction_id : option string;
  processed_at : option Z
}.

(** [SET status = ?, transaction_id = ?, processed_at = CURRENT_TIMESTAMP] *)
Definition set_status (s : string) (t : option string) (now : Z) (w : row)
  : row :=
  {| id := id w; user_id := user_id w; amount := amount w;
     method := method w; mobile_number := mobile_number w;
     status := s; transaction_id := t; processed_at := Some now |}.
End withdrawals.

Module ads.
Record row := {
  id : Z;
  title : string;
  description : string;
  earnings : float;
  is_active : Z
}.
End ads.

Module user_ads.
Record row := {
  id : Z;
  user_id : Z;
  ad_id : Z;
  watched_at : Z
}.
End user_ads.

Module daily_limits.
Record row := {
  id : Z;
  user_id : Z;
  date : string;
  ads_watched : Z;
  earned_today : float
}.

(** [SET ads_watched = ads_watched + 1, earned_today = earned_today + ?] *)
Definition bump (amount : float) (l : row) : row :=
  {| id := id l; user_id := user_id l; date := date l;
     ads_watched := ads_watched l + 1;
     earned_today := (earned_today l + amount)%float |}.
End daily_limits.

(** The text of a [value] cell of [settings], as its readers take it.  They
    all apply [float()] to it: the text is that of a number, [nan] and [inf]
    included, or it is some other text, on which [float()] raises
    [ValueError]. *)
Inductive setting :=
  | Number (x : float)
  | Other_text.

(** The database file.  [settings] has [key TEXT UNIQUE] and is only written
    by [INSERT OR IGNORE] and [INSERT OR REPLACE]: a finite map.
    [db_daily_limits_seq] is the row of [sqlite_sequence] for
    [daily_limits], the one table whose ids are not simply counted by its
    rows (see [record_ad_watch]). *)
Record Store := {
  db_users : list users.row;
  db_earnings : list earnings.row;
  db_withdrawals : list withdrawals.row;
  db_ads : list ads.row;
  db_user_ads : list user_ads.row;
  db_daily_limits : list daily_limits.row;
  db_daily_limits_seq : Z;
  db_settings : gmap string setting
}.

Definition with_users (us : list users.row) (db : Store) : Store :=
  {| db_users := us; db_earnings := db_earnings db;
     db_withdrawals := db_withdrawals db; db_ads := db_ads db;
     db_user_ads := db_user_ads db; db_daily_limits := db_daily_limits db;
     db_daily_limits_seq := db_daily_limits_seq db;
     db_settings := db_settings db |}.

Definition with_earnings (es : list earnings.row) (db : Store) : Store :=
  {| db_users := db_users db; db_earnings := es;
     db_withdrawals := db_withdrawals db; db_ads := db_ads db;
     db_user_ads := db_user_ads db; db_daily_limits := db_daily_limits db;
     db_daily_limits_seq := db_daily_limits_seq db;
     db_settings := db_settings db |}.

Definition with_withdrawals (ws : list withdrawals.row) (db : Store) : Store :=
  {| db_users := db_users db; db_earnings := db_earnings db;
     db_withdrawals := ws; db_ads := db_ads db;
     db_user_ads := db_user_ads db; db_daily_limits := db_daily_limits db;
     db_daily_limits_seq := db_daily_limits_seq db;
     db_settings := db_settings db |}.

Definition with_ads (l : list ads.row) (db : Store) : Store :=
  {| db_users := db_users db; db_earnings := db_earnings db;
     db_withdrawals := db_withdrawals db; db_ads := l;
     db_user_ads := db_user_ads db; db_daily_limits := db_daily_limits db;
     db_daily_limits_seq := db_daily_limits_seq db;
     db_settings := db_settings db |}.

Definition with_user_ads (l : list user_ads.row) (db : Store) : Store :=
  {| db_users := db_users db; db_earnings := db_earnings db;
     db_withdrawals := db_withdrawals db; db_ads := db_ads db;
     db_user_ads := l; db_daily_limits := db_daily_limits db;
     db_daily_limits_seq := db_daily_limits_seq db;
     db_settings := db_settings db |}.

Definition with_daily_limits (l : list daily_limits.row) (seq : Z)
  (db : Store) : Store :=
  {| db_users := db_users db; db_earnings := db_earnings db;
     db_withdrawals := db_withdrawals db; db_ads := db_ads db;
     db_user_ads := db_user_ads db; db_daily_limits := l;
     db_daily_limits_seq := seq;
     db_settings := db_settings db |}.

Definition with_settings (m : gmap string setting) (db : Store) : Store :=
  {| db_users := db_users db; db_earnings := db_earnings db;
     db_withdrawals := db_withdrawals db; db_ads := db_ads db;
     db_user_ads := db_user_ads db; db_daily_limits := db_daily_limits db;
     db_daily_limits_seq := db_daily_limits_seq db;
     db_settings := m |}.

(** ** SQL helpers *)

(** [INTEGER PRIMARY KEY AUTOINCREMENT]: one more than the largest id of the
    table.  No row of these tables is ever deleted, so that is also the
    largest id ever used. *)
Definition next_id (ids : list Z) : Z := fold_right Z.max 0 ids + 1.

(** The same for a table that is written by an upsert: the id comes after
    the largest id of the table and after the one [sqlite_sequence] holds,
    and [sqlite_sequence] then holds it, also when the statement ends in
    [DO UPDATE] and the id goes unused. *)
Definition autoincrement (seq : Z) (ids : list Z) : Z :=
  Z.max seq (fold_right Z.max 0 ids) + 1.

(** [UPDATE t SET .. WHERE c]: every matching row is rewritten. *)
Definition sql_update {A : Type} (c : A -> bool) (f : A -> A) (t : list A)
  : list A :=
  List.map (fun r => if c r then f r else r) t.

(** [cursor.rowcount] after that [UPDATE]. *)
Definition rowcount {A : Type} (c : A -> bool) (t : list A) : Z :=
  Z.of_nat (length (List.filter c t)).

(** [SELECT .. WHERE c] followed by [fetchone()], or a scalar subquery: the
    first matching row, if any. *)
Definition sql_first {A : Type} (c : A -> bool) (t : list A) : option A :=
  List.find c t.

(** [SELECT COUNT( * ) FROM t WHERE c] *)
Definition sql_count {A : Type} (c : A -> bool) (t : list A) : Z :=
  Z.of_nat (length (List.filter c t)).

(** [SELECT COALESCE(SUM(x), 0)]: [SUM] skips the [NULL] cells; over no
    cell, and when the floating sum of the cells is no number, it is [NULL]
    and the result is the integer 0. *)
Definition coalesce_sum (xs : list float) : number :=
  match List.filter (fun x => negb (is_NULL x)) xs with
  | [] => Int 0
  | x :: xs' =>
    let sum := fold_left PrimFloat.add xs' x in
    if is_NULL sum then Int 0 else Float sum
  end.

(** [v or 0] for such a number: zero of either kind is false. *)
Definition or_0 (v : number) : number :=
  match v with
  | Int n => Int n
  | Float x => if (x =? 0)%float then Int 0 else Float x
  end.

Definition by_telegram_id (t : Z) (u : users.row) : bool :=
  users.telegram_id u =? t.

(** ** Results *)

(** The exceptions a method can leave with. *)
Inductive exn :=
  | IntegrityError
  | OperationalError
  | TypeError
  | KeyError
  | ValueError.

(** What a call does: it returns a value and leaves the database file in a
    new state, or it raises.  Every method commits once, as its last write,
    so a call that raises leaves the file as it found it. *)
Inductive outcome (A : Type) :=
  | Return (a : A) (db : Store)
  | Raise (e : exn).
Arguments Return {A} a db.
Arguments Raise {A} e.

(** The database file after a call made on [db]. *)
Definition after {A : Type} (db : Store) (o : outcome A) : Store :=
  match o with
  | Return _ db' => db'
  | Raise _ => db
  end.

(** ** The methods of [Database] *)

(** [INSERT OR IGNORE INTO settings]: kept as it is when the key is there. *)
Definition insert_or_ignore (key : string) (value : setting)
  (m : gmap string setting) : gmap string setting :=
  match m !! key with
  | Some _ => m
  | None => <[key := value]> m
  end.

(** The three rows [init_database] puts in an empty [ads] table. *)
Definition sample_ads (cfg : Config) : list ads.row :=
  [ {| ads.id := 1; ads.title := "Mobile App Review";
       ads.description := "Watch this 30-second ad about new mobile app";
       ads.earnings := AD_EARNING_RATE cfg; ads.is_active := 1 |};
    {| ads.id := 2; ads.title := "E-commerce Offer";
       ads.description := "Special discount offer for online shopping";
       ads.earnings := AD_EARNING_RATE cfg; ads.is_active := 1 |};
    {| ads.id := 3; ads.title := "Game Promotion";
       ads.description := "Try this new exciting mobile game";
       ads.earnings := AD_EARNING_RATE cfg; ads.is_active := 1 |} ].

(** The file before [init_database] first runs. *)
Definition empty_Store : Store :=
  {| db_users := []; db_earnings := []; db_withdrawals := []; db_ads := [];
     db_user_ads := []; db_daily_limits := []; db_daily_limits_seq := 0;
     db_settings := ∅ |}.

(** [init_database], as the file it leaves: the tables exist already in a
    [Store]; the default settings, each the [str()] of a number of the
    configuration, are added where missing, and the sample ads when there is
    no ad.  With no ad and a rate that is NaN the first sample ad fails on
    [ads.earnings NOT NULL]: the method raises before its commit and the
    file stays as it was.  (The pictographs that open the three titles are
    left out.) *)
Definition init_database (cfg : Config) (db : Store) : Store :=
  let m :=
    insert_or_ignore "ad_cooldown"
      (Number (float_of_int (AD_COOLDOWN_SECONDS cfg)))
      (insert_or_ignore "max_ads_per_day"
         (Number (float_of_int (MAX_ADS_PER_DAY cfg)))
      (insert_or_ignore "daily_earning_limit"
         (Number (DAILY_EARNING_LIMIT cfg))
      (insert_or_ignore "minimum_withdrawal" (Number (MINIMUM_WITHDRAWAL cfg))
      (insert_or_ignore "referral_bonus" (Number (REFERRAL_BONUS cfg))
      (insert_or_ignore "ad_earning_rate" (Number (AD_EARNING_RATE cfg))
         (db_settings db)))))) in
  let db1 := with_settings m db in
  if (sql_count (fun _ => true) (db_ads db1) =? 0)
  then if is_NULL (AD_EARNING_RATE cfg) then db
       else with_ads (sample_ads cfg) db1
  else db1.

(** [get_user] *)
Definition get_user (db : Store) (telegram_id : Z) : option users.row :=
  sql_first (by_telegram_id telegram_id) (db_users db).

(** [update_balance]: the amount goes on [balance] and on [total_earned] of
    the rows with that [telegram_id] and [is_banned = 0]; the result is
    [cursor.rowcount > 0]. *)
Definition update_balance (db : Store) (telegram_id : Z) (amount : float)
  : outcome bool :=
  let c u := by_telegram_id telegram_id u && (users.is_banned u =? 0) in
  Return (0 <? rowcount c (db_users db))
         (with_users (sql_update c (users.credit amount) (db_users db)) db).

(** [add_referral_earning].  The method works on a connection of its own.
    [busy] says whether another connection holds an uncommitted write on the
    file at that moment: SQLite admits a single writer, so the first write of
    this connection then ends, after the busy timeout, in
    [sqlite3.OperationalError: database is locked].  The [SELECT] before it
    is not hindered.  [fetchone()[0]] on no row is a [TypeError], and
    [float()] of a text that is no number a [ValueError]; a [NULL] for
    [earnings.user_id] or for [earnings.amount], which are [NOT NULL], is an
    [IntegrityError]. *)
Definition add_referral_earning (busy : bool) (db : Store)
  (referrer_id referred_id : Z) : outcome unit :=
  match db_settings db !! "referral_bonus" with
  | None => Raise TypeError
  | Some Other_text => Raise ValueError
  | Some (Number bonus) =>
    if busy then Raise OperationalError else
    let us := sql_update (by_telegram_id referrer_id) (users.credit bonus)
                (db_users db) in
    match sql_first (by_telegram_id referrer_id) us with
    | None => Raise IntegrityError
    | Some u =>
      if is_NULL bonus then Raise IntegrityError else
      let e := {| earnings.id := next_id (List.map earnings.id (db_earnings db));
                  earnings.user_id := users.id u;
                  earnings.amount := bonus;
                  earnings.type := "referral";
                  earnings.description := ("Referral: " ++ str referred_id)%string |} in
      Return tt (with_earnings (db_earnings db ++ [e]) (with_users us db))
    end
  end.

(** The [UNIQUE] constraints of [users]. *)
Definition users_conflict (telegram_id : Z) (referral_code : string)
  (us : list users.row) : bool :=
  existsb (fun u => by_telegram_id telegram_id u
                    || (users.referral_code u =? referral_code)%string) us.

(** [register_user].  [hex6] stands for [uuid.uuid4().hex[:6].upper()].
    The [INSERT] is done on the method's connection and committed last; in
    between, when [referred_by] is true, [add_referral_earning] runs on its
    own connection, with the [INSERT] still uncommitted.  Only an
    [IntegrityError] is caught; [finally] closes the connection, which drops
    what it has not committed. *)
Definition register_user (db : Store) (telegram_id : Z) (username : string)
  (referred_by : option Z) (hex6 : string) : outcome bool :=
  let referral_code := ("REF" ++ str telegram_id ++ hex6)%string in
  if users_conflict telegram_id referral_code (db_users db)
  then Return false db
  else
    let u := {| users.id := next_id (List.map users.id (db_users db));
                users.telegram_id := telegram_id;
                users.username := username;
                users.referral_code := referral_code;
                users.referred_by := referred_by;
                users.balance := 0.0%float;
                users.total_earned := 0.0%float;
                users.total_withdrawn := 0.0%float;
                users.is_banned := 0 |} in
    if truthy referred_by then
      match add_referral_earning true db (default 0 referred_by) telegram_id with
      | Return _ db' => Return true (with_users (db_users db' ++ [u]) db')
      | Raise IntegrityError => Return false db
      | Raise e => Raise e
      end
    else Return true (with_users (db_users db ++ [u]) db).

(** The dictionary [get_referral_stats] returns. *)
Record referral_stats := {
  total : Z;
  active : Z;
  earnings : number
}.

(** [get_referral_stats].  [referred_by] is compared with the [id] of the
    row, and [COUNT(DISTINCT u.id)] counts the ids of the referred rows that
    join with at least one row of [earnings]. *)
Definition get_referral_stats (db : Store) (telegram_id : Z) : referral_stats :=
  match sql_first (by_telegram_id telegram_id) (db_users db) with
  | None => {| total := 0; active := 0; earnings := Int 0 |}
  | Some user =>
    let user_id := users.id user in
    let referred (u : users.row) :=
      match users.referred_by u with
      | Some r => r =? user_id
      | None => false
      end in
    let earned (u : users.row) :=
      existsb (fun e => earnings.user_id e =? users.id u) (db_earnings db) in
    {| total := sql_count referred (db_users db);
       active := Z.of_nat (length (nodup Z.eq_dec
                   (List.map users.id
                      (List.filter (fun u => referred u && earned u)
                         (db_users db)))));
       earnings := or_0 (coalesce_sum
                   (List.map earnings.amount
                      (List.filter (fun e => (earnings.user_id e =? user_id)
                                      && (earnings.type e =? "referral")%string)
                         (db_earnings db)))) |}
  end.

(** [MAX(x)] over the selected rows: [NULL] over none. *)
Definition sql_max (xs : list Z) : option Z :=
  match xs with
  | [] => None
  | x :: xs' => Some (fold_left Z.max xs' x)
  end.

(** The row of [daily_limits] for a user and a date. *)
Definition limit_of (user_id : Z) (today : string) (l : daily_limits.row)
  : bool :=
  (daily_limits.user_id l =? user_id) && (daily_limits.date l =? today)%string.

(** [MAX(watched_at)] of the user's rows of [user_ads] that join with a row
    of [ads]. *)
Definition last_watched (db : Store) (user_id : Z) : option Z :=
  sql_max (List.map user_ads.watched_at
             (List.filter
                (fun ua => (user_ads.user_id ua =? user_id)
                           && existsb (fun a => ads.id a =? user_ads.ad_id ua)
                                (db_ads db))
                (db_user_ads db))).

(** The last part of [can_watch_ad]: the cooldown, measured against
    [Config.AD_COOLDOWN_SECONDS]. *)
Definition check_cooldown (cfg : Config) (db : Store) (now : Z) (user_id : Z)
  : bool * string :=
  match last_watched db user_id with
  | Some last_time =>
    if now - last_time <? AD_COOLDOWN_SECONDS cfg
    then (false, ("Wait " ++ str (AD_COOLDOWN_SECONDS cfg)
                    ++ " seconds between ads")%string)
    else (true, "")
  | None => (true, "")
  end.

(** [float(row[1])] fails on the row of a key: the row is there and its text
    is no number. *)
Definition unparsable (row : option setting) : bool :=
  match row with
  | Some Other_text => true
  | _ => false
  end.

(** [can_watch_ad].  [today] is [datetime.date.today().isoformat()] and [now]
    is [datetime.datetime.now()].  The rows of the two caps are read into a
    dictionary, [float()] being applied to each: a text that is no number is
    a [ValueError], whether or not there is a row for today.  The dictionary
    is indexed only when today's row exists: a missing key is then a
    [KeyError], and an [earned_today] that is [NULL] a [TypeError] when it
    is compared. *)
Definition can_watch_ad (cfg : Config) (db : Store) (today : string) (now : Z)
  (telegram_id : Z) : outcome (bool * string) :=
  match sql_first (by_telegram_id telegram_id) (db_users db) with
  | None => Return (false, "User not found") db
  | Some user =>
    let user_id := users.id user in
    let settings (key : string) := db_settings db !! key in
    if unparsable (settings "max_ads_per_day")
       || unparsable (settings "daily_earning_limit")
    then Raise ValueError
    else
    match sql_first (limit_of user_id today) (db_daily_limits db) with
    | Some limit =>
      match settings "max_ads_per_day" with
      | None => Raise KeyError
      | Some Other_text => Raise ValueError
      | Some (Number max_ads_per_day) =>
        if (max_ads_per_day <=? float_of_int (daily_limits.ads_watched limit))%float
        then Return (false, "Daily ad limit reached") db
        else
          match settings "daily_earning_limit" with
          | None => Raise KeyError
          | Some Other_text => Raise ValueError
          | Some (Number daily_earning_limit) =>
            if is_NULL (daily_limits.earned_today limit) then Raise TypeError
            else
            if (daily_earning_limit <=? daily_limits.earned_today limit)%float
            then Return (false, "Daily earning limit reached") db
            else Return (check_cooldown cfg db now user_id) db
          end
      end
    | None => Return (check_cooldown cfg db now user_id) db
    end
  end.

(** [record_ad_watch].  [now] is the [CURRENT_TIMESTAMP] that [watched_at]
    defaults to.  The upsert of [daily_limits] takes an id from
    [sqlite_sequence] whether it inserts or updates.  An amount that is NaN
    is bound as [NULL], which [earnings.amount NOT NULL] refuses: the
    [IntegrityError] comes before the commit and nothing is written. *)
Definition record_ad_watch (db : Store) (today : string) (now : Z)
  (telegram_id ad_id : Z) (amount : float) : outcome unit :=
  match sql_first (by_telegram_id telegram_id) (db_users db) with
  | None => Raise TypeError
  | Some user =>
    let user_id := users.id user in
    let seq := autoincrement (db_daily_limits_seq db)
                 (List.map daily_limits.id (db_daily_limits db)) in
    let limits :=
      if existsb (limit_of user_id today) (db_daily_limits db)
      then sql_update (limit_of user_id today) (daily_limits.bump amount)
             (db_daily_limits db)
      else (db_daily_limits db ++
            [ {| daily_limits.id := seq;
                 daily_limits.user_id := user_id;
                 daily_limits.date := today;
                 daily_limits.ads_watched := 1;
                 daily_limits.earned_today := amount |} ])%list in
    let ua := {| user_ads.id := next_id (List.map user_ads.id (db_user_ads db));
                 user_ads.user_id := user_id;
                 user_ads.ad_id := ad_id;
                 user_ads.watched_at := now |} in
    let us := sql_update (by_telegram_id telegram_id) (users.credit amount)
                (db_users db) in
    let e := {| earnings.id := next_id (List.map earnings.id (db_earnings db));
                earnings.user_id := user_id;
                earnings.amount := amount;
                earnings.type := "ad";
                earnings.description := "Ad watch" |} in
    if is_NULL amount then Raise IntegrityError else
    Return tt
      (with_earnings (db_earnings db ++ [e])
         (with_users us
            (with_user_ads (db_user_ads db ++ [ua])
               (with_daily_limits limits seq db))))
  end.

(** [create_withdrawal].  The new row takes the defaults of its table:
    [status = 'pending'], no [transaction_id], no [processed_at].  A minimum
    whose text is no number is a [ValueError]; a balance that is [NULL] is a
    [TypeError] when the amount is compared with it; an amount that is NaN
    passes both comparisons and is then refused, as [NULL], by
    [withdrawals.amount NOT NULL], before anything is committed. *)
Definition create_withdrawal (db : Store) (telegram_id : Z) (amount : float)
  (method mobile : string) : outcome bool :=
  match db_settings db !! "minimum_withdrawal" with
  | None => Raise TypeError
  | Some Other_text => Raise ValueError
  | Some (Number min_withdrawal) =>
    if (amount <? min_withdrawal)%float then Return false db else
    match sql_first (by_telegram_id telegram_id) (db_users db) with
    | None => Raise TypeError
    | Some user =>
      let balance := users.balance user in
      if is_NULL balance then Raise TypeError else
      if (balance <? amount)%float then Return false db else
      if is_NULL amount then Raise IntegrityError else
      let us := sql_update (by_telegram_id telegram_id)
                  (fun u => users.set_balance (users.balance u - amount)%float u)
                  (db_users db) in
      let w := {| withdrawals.id :=
                    next_id (List.map withdrawals.id (db_withdrawals db));
                  withdrawals.user_id := users.id user;
                  withdrawals.amount := amount;
                  withdrawals.method := method;
                  withdrawals.mobile_number := mobile;
                  withdrawals.status := "pending";
                  withdrawals.transaction_id := None;
                  withdrawals.processed_at := None |} in
      Return true (with_withdrawals (db_withdrawals db ++ [w]) (with_users us db))
    end
  end.

Definition by_withdrawal_id (i : Z) (w : withdrawals.row) : bool :=
  withdrawals.id w =? i.

(** [update_withdrawal_status].  [now] is [CURRENT_TIMESTAMP].  The second
    [UPDATE] reads [amount] and [user_id] through scalar subqueries: with no
    such withdrawal they are [NULL] and no row of [users] matches. *)
Definition update_withdrawal_status (db : Store) (now : Z) (withdrawal_id : Z)
  (status : string) (transaction_id : option string) : outcome unit :=
  let ws := sql_update (by_withdrawal_id withdrawal_id)
              (withdrawals.set_status status transaction_id now)
              (db_withdrawals db) in
  let db1 := with_withdrawals ws db in
  if (status =? "rejected")%string then
    match sql_first (by_withdrawal_id withdrawal_id) ws with
    | Some w =>
      Return tt
        (with_users
           (sql_update (fun u => users.id u =? withdrawals.user_id w)
              (fun u => users.set_balance
                          (users.balance u + withdrawals.amount w)%float u)
              (db_users db1))
           db1)
    | None => Return tt db1
    end
  else Return tt db1.

(** [update_setting]: [INSERT OR REPLACE], of any text. *)
Definition update_setting (db : Store) (key : string) (value : setting)
  : outcome unit :=
  Return tt (with_settings (<[key := value]> (db_settings db)) db).

(** [get_setting] *)
Definition get_setting (db : Store) (key : string) (default : option setting)
  : option setting :=
  match db_settings db !! key with
  | Some value => Some value
  | None => default
  end.

(** [get_user(telegram_id)['balance']], when there is such a user. *)
Definition balance_of (db : Store) (telegram_id : Z) : option float :=
  option_map users.balance (get_user db telegram_id).

Definition total_earned_of (db : Store) (telegram_id : Z) : option float :=
  option_map users.total_earned (get_user db telegram_id).

Definition total_withdrawn_of (db : Store) (telegram_id : Z) : option float :=
  option_map users.total_withdrawn (get_user db telegram_id).

(** The row of a withdrawal. *)
Definition get_withdrawal (db : Store) (withdrawal_id : Z)
  : option withdrawals.row :=
  sql_first (by_withdrawal_id withdrawal_id) (db_withdrawals db).

(** What the caller of a method sees: the value returned or the exception
    raised. *)
Definition seen {A : Type} (o : outcome A) : A + exn :=
  match o with
  | Return a _ => inl a
  | Raise e => inr e
  end.

(** The rate limiter as the specification words it: the counter of the day
    is read first, an absent one as [ads_watched = 0] and
    [earned_today = 0]; the two caps are compared with it; the cooldown is
    checked last.  It differs from [can_watch_ad] in the [None] case only. *)
Definition can_earn_absent_as_zero (cfg : Config) (db : Store) (today : string)
  (now : Z) (telegram_id : Z) : outcome (bool * string) :=
  match sql_first (by_telegram_id telegram_id) (db_users db) with
  | None => Return (false, "User not found") db
  | Some user =>
    let user_id := users.id user in
    let counter :=
      match sql_first (limit_of user_id today) (db_daily_limits db) with
      | Some limit =>
        (daily_limits.ads_watched limit, daily_limits.earned_today limit)
      | None => (0, 0.0%float)
      end in
    if unparsable (db_settings db !! "max_ads_per_day")
       || unparsable (db_settings db !! "daily_earning_limit")
    then Raise ValueError
    else
    match db_settings db !! "max_ads_per_day" with
    | None => Raise KeyError
    | Some Other_text => Raise ValueError
    | Some (Number max_ads_per_day) =>
      if (max_ads_per_day <=? float_of_int (fst counter))%float
      then Return (false, "Daily ad limit reached") db
      else
        match db_settings db !! "daily_earning_limit" with
        | None => Raise KeyError
        | Some Other_text => Raise ValueError
        | Some (Number daily_earning_limit) =>
          if is_NULL (snd counter) then Raise TypeError
          else
          if (daily_earning_limit <=? snd counter)%float
          then Return (false, "Daily earning limit reached") db
          else Return (check_cooldown cfg db now user_id) db
        end
    end
  end.

(** ** A ledger to run the methods on

    The file as [init_database] leaves it with the default configuration,
    then one account that earns 150, asks for 120 of it, and has the request
    approved or rejected by the administrator. *)
Module Scenario.
Definition alice : Z := 100.
Definition bob : Z := 200.

Definition opened : Store := init_database default_Config empty_Store.

Definition registered : Store :=
  after opened (register_user opened alice "alice" None "A1B2C3").

Definition rewarded : Store :=
  after registered
    (record_ad_watch registered "2024-01-01" 1000 alice 1 150.0%float).

Definition requested : Store :=
  after rewarded
    (create_withdrawal rewarded alice 120.0%float "Bkash" "01700000000").

Definition approved : Store :=
  after requested (update_withdrawal_status requested 2000 1 "approved" None).

Definition rejected : Store :=
  after requested (update_withdrawal_status requested 2000 1 "rejected" None).

(** The same account with a single reward of 228.4 instead. *)
Definition rewarded_228_4 : Store :=
  after registered
    (record_ad_watch registered "2024-01-01" 1000 alice 1 228.4%float).

(** The account watches one ad of 5 at second 1000; the administrator then
    sets the cooldown to 10 seconds with [/set ad_cooldown 10]. *)
Definition watched : Store :=
  after registered
    (record_ad_watch registered "2024-01-01" 1000 alice 1 5.0%float).




Definition cooldown_10 : Store :=
  after watched (update_setting watched "ad_cooldown" (Number 10.0%float)).

(** The administrator sets [/set max_ads_per_day 0] before the account has
    watched anything. *)
Definition no_ads_allowed : Store :=
  after registered (update_setting registered "max_ads_per_day" (Number 0.0%float)).
End Scenario.

(** ** The other methods of [Database] *)

(** [get_available_ads] *)
Definition get_available_ads (db : Store) : list ads.row :=
  List.filter (fun a => ads.is_active a =? 1) (db_ads db).

(** The dictionary [get_system_stats] returns. *)
Record system_stats := {
  total_users : Z;
  active_today : Z;
  total_earnings : number;
  total_withdrawals : number;
  pending_withdrawals : number
}.

(** The amounts of the withdrawals in a given status, in table order. *)
Definition amounts_in_status (s : string) (ws : list withdrawals.row)
  : list float :=
  List.map withdrawals.amount
    (List.filter (fun w => (withdrawals.status w =? s)%string) ws).

(** [get_system_stats].  [today] is [datetime.date.today().isoformat()]. *)
Definition get_system_stats (db : Store) (today : string) : system_stats :=
  {| total_users := sql_count (fun _ => true) (db_users db);
     active_today :=
       Z.of_nat (length (nodup Z.eq_dec
         (List.map daily_limits.user_id
            (List.filter (fun l => (daily_limits.date l =? today)%string)
               (db_daily_limits db)))));
     total_earnings :=
       or_0 (coalesce_sum (List.map users.total_earned (db_users db)));
     total_withdrawals :=
       or_0 (coalesce_sum (amounts_in_status "approved" (db_withdrawals db)));
     pending_withdrawals :=
       or_0 (coalesce_sum (amounts_in_status "pending" (db_withdrawals db))) |}.

(** ** The handlers of [TelegramBot], as far as the ledger goes

    What a handler sends back is kept as a tag; the texts and keyboards are
    not modelled. *)

(** The [INSERT INTO ads] of the [/add_ad] command, once its three fields
    are parsed.  Earnings that are NaN are bound as [NULL], which
    [ads.earnings NOT NULL] refuses. *)
Definition add_ad (db : Store) (title description : string) (earnings : float)
  : outcome unit :=
  if is_NULL earnings then Raise IntegrityError else
  Return tt
    (with_ads
       (db_ads db ++
        [ {| ads.id := next_id (List.map ads.id (db_ads db));
             ads.title := title;
             ads.description := description;
             ads.earnings := earnings;
             ads.is_active := 1 |} ])%list
       db).

(** What [start] answers. *)
Inductive start_reply :=
  | Welcome
  | Account_banned.

(** [start].  [args] is [context.args] and [username] is
    [user.username or user.first_name].  A first argument is looked up as a
    referral code; the id of its owner, if any, is the [referred_by] of the
    registration.  An account is registered only when [get_user] finds
    none; [user_data['is_banned']] on a second [None] is a [TypeError]. *)
Definition start (db : Store) (telegram_id : Z) (username : string)
  (args : list string) (hex6 : string) : outcome start_reply :=
  let referred_by :=
    match args with
    | ref_code :: _ =>
      option_map users.telegram_id
        (sql_first (fun u => (users.referral_code u =? ref_code)%string)
           (db_users db))
    | [] => None
    end in
  let reply (user_data : users.row) :=
    if users.is_banned user_data =? 0 then Welcome else Account_banned in
  match get_user db telegram_id with
  | Some user_data => Return (reply user_data) db
  | None =>
    match register_user db telegram_id username referred_by hex6 with
    | Raise e => Raise e
    | Return _ db' =>
      match get_user db' telegram_id with
      | Some user_data => Return (reply user_data) db'
      | None => Raise TypeError
      end
    end
  end.

(** What [watch_ad] answers. *)
Inductive watch_reply :=
  | Denied (reason : string)
  | No_ads
  | Watched (ad : ads.row).

(** [watch_ad].  [today] and [now] are the date and time [can_watch_ad]
    reads, [today'] and [current_timestamp] those of [record_ad_watch];
    [pick] stands for the draw of [random.choice]. *)
Definition watch_ad (cfg : Config) (db : Store) (today : string) (now : Z)
  (today' : string) (current_timestamp : Z) (telegram_id : Z) (pick : nat)
  : outcome watch_reply :=
  match can_watch_ad cfg db today now telegram_id with
  | Raise e => Raise e
  | Return (false, reason) _ => Return (Denied reason) db
  | Return (true, _) _ =>
    match get_available_ads db with
    | [] => Return No_ads db
    | a :: rest =>
      let ad := nth (pick mod length (a :: rest))%nat (a :: rest) a in
      match record_ad_watch db today' current_timestamp telegram_id
              (ads.id ad) (ads.earnings ad) with
      | Raise e => Raise e
      | Return _ db' => Return (Watched ad) db'
      end
    end
  end.

(** [s.split("_")] *)
Fixpoint split_ (s : string) : list string :=
  match s with
  | EmptyString => [EmptyString]
  | String c s' =>
    if Ascii.eqb c "_"%char then EmptyString :: split_ s'
    else match split_ s' with
         | part :: parts => String c part :: parts
         | [] => [String c EmptyString]
         end
  end.

(** The branch [handle_callback] takes on the data of a button. *)
Inductive callback_branch :=
  | Show_earn_menu
  | Show_referral_info
  | Show_account_info
  | Show_withdraw_menu
  | Show_support
  | Show_admin_panel
  | Watch_ad
  | Show_main_menu
  | Set_withdraw_method (method : string)
  | Handle_admin_callback
  | No_branch.

(** [handle_callback]: the chain of [if]/[elif] on [query.data].  In the
    [withdraw_] branch the method is [data.split("_")[1]], which exists
    there. *)
Definition handle_callback (data : string) : callback_branch :=
  if (data =? "earn_money")%string then Show_earn_menu
  else if (data =? "referral")%string then Show_referral_info
  else if (data =? "my_account")%string then Show_account_info
  else if (data =? "withdraw")%string then Show_withdraw_menu
  else if (data =? "support")%string then Show_support
  else if (data =? "admin_panel")%string then Show_admin_panel
  else if (data =? "watch_ad")%string then Watch_ad
  else if (data =? "back_to_menu")%string then Show_main_menu
  else if String.prefix "withdraw_" data
       then Set_withdraw_method (nth 1 (split_ data) EmptyString)
  else if String.prefix "admin_" data then Handle_admin_callback
  else No_branch.

(** The branch [handle_admin_callback] takes. *)
Inductive admin_branch :=
  | Show_admin_users
  | Show_admin_withdrawals
  | Show_admin_settings
  | Show_admin_stats
  | Show_admin_ads
  | Await_broadcast
  | Withdraw_action (parts : list string)
  | Show_admin_panel_again
  | No_admin_branch.

(** [handle_admin_callback].  The [withdraw_action_] branch goes on with
    [parts[2]] as the action and [int(parts[3])] as the withdrawal, and
    calls [update_withdrawal_status] with ['approved'] or ['rejected']. *)
Definition handle_admin_callback (data : string) : admin_branch :=
  if (data =? "admin_users")%string then Show_admin_users
  else if (data =? "admin_withdrawals")%string then Show_admin_withdrawals
  else if (data =? "admin_settings")%string then Show_admin_settings
  else if (data =? "admin_stats")%string then Show_admin_stats
  else if (data =? "admin_ads")%string then Show_admin_ads
  else if (data =? "admin_broadcast")%string then Await_broadcast
  else if String.prefix "withdraw_action_" data
       then Withdraw_action (split_ data)
  else if (data =? "admin_back")%string then Show_admin_panel_again
  else No_admin_branch.

(** ** Sequences of calls *)

(** A call that can write to the file: a method of [Database] or the
    [INSERT] of [/add_ad]. *)
Inductive call :=
  | Init_database (cfg : Config)
  | Register_user (telegram_id : Z) (username : string)
      (referred_by : option Z) (hex6 : string)
  | Update_balance (telegram_id : Z) (amount : float)
  | Add_referral_earning (referrer_id referred_id : Z)
  | Record_ad_watch (today : string) (now : Z) (telegram_id ad_id : Z)
      (amount : float)
  | Create_withdrawal (telegram_id : Z) (amount : float)
      (method mobile : string)
  | Update_withdrawal_status (now : Z) (withdrawal_id : Z) (status : string)
      (transaction_id : option string)
  | Update_setting (key : string) (value : setting)
  | Add_ad (title description : string) (earnings : float).

(** The file after a call. *)
Definition run (db : Store) (c : call) : Store :=
  match c with
  | Init_database cfg => init_database cfg db
  | Register_user t n r h => after db (register_user db t n r h)
  | Update_balance t a => after db (update_balance db t a)
  | Add_referral_earning r d => after db (add_referral_earning false db r d)
  | Record_ad_watch d n t a x => after db (record_ad_watch db d n t a x)
  | Create_withdrawal t a m p => after db (create_withdrawal db t a m p)
  | Update_withdrawal_status n w s t =>
    after db (update_withdrawal_status db n w s t)
  | Update_setting k v => after db (update_setting db k v)
  | Add_ad t d e => after db (add_ad db t d e)
  end.

(** The states of the file: [Database.__init__] runs [init_database] on a
    file that is empty at first, and the file then changes by calls.  With a
    rate that is NaN that first [init_database] raises, and there is no
    [Database] to call. *)
Inductive reachable : Store -> Prop :=
  | reachable_init cfg :
      is_NULL (AD_EARNING_RATE cfg) = false ->
      reachable (init_database cfg empty_Store)
  | reachable_run db c : reachable db -> reachable (run db c).

(** The six keys [init_database] seeds. *)
Definition setting_keys : list string :=
  [ "ad_earning_rate"; "referral_bonus"; "minimum_withdrawal";
    "daily_earning_limit"; "max_ads_per_day"; "ad_cooldown" ].

(** The key of a row of [daily_limits]. *)
Definition limit_key (l : daily_limits.row) : Z * string :=
  (daily_limits.user_id l, daily_limits.date l).

(** What the schema promises, and what it leaves to the code since SQLite
    does not enforce foreign keys unless asked: the keys are unique, and
    every earning and every withdrawal belongs to a row of [users]. *)
Record consistent (db : Store) : Prop := {
  users_id_unique : NoDup (List.map users.id (db_users db));
  users_telegram_id_unique : NoDup (List.map users.telegram_id (db_users db));
  users_id_positive : Forall (fun i => 0 < i) (List.map users.id (db_users db));
  withdrawals_id_unique :
    NoDup (List.map withdrawals.id (db_withdrawals db));
  daily_limits_unique : NoDup (List.map limit_key (db_daily_limits db));
  earnings_owned :
    Forall (fun i => In i (List.map users.id (db_users db)))
      (List.map earnings.user_id (db_earnings db));
  withdrawals_owned :
    Forall (fun i => In i (List.map users.id (db_users db)))
      (List.map withdrawals.user_id (db_withdrawals db))
}.

(** * Properties *)

(** Two floats, or two values built from floats, are told apart by a
    function that computes to different results on them. *)
Ltac differ_by f :=
  let H := fresh "H" in
  intro H; apply (f_equal f) in H; vm_compute in H; discriminate H.

(** ** [NULL] in comparisons

    A value that is no number compares false with everything, itself
    included. *)

Lemma SF_unordered x :
  SFeqb x x = false ->
  forall y, SFltb x y = false /\ SFltb y x = false
            /\ SFleb x y = false /\ SFleb y x = false.
Proof.
  destruct x as [s|s| |s m e]; cbv [SFeqb SFcompare].
  - intros H; discriminate H.
  - destruct s; intros H; discriminate H.
  - intros _ y. cbv [SFltb SFleb SFcompare].
    destruct y as [[]|[]| |[] ? ?]; auto.
  - rewrite Z.compare_refl. fold (Pos.compare m m). rewrite Pos.compare_refl.
    destruct s; intros H; discriminate H.
Qed.

Lemma is_NULL_unordered x y :
  is_NULL x = true ->
  (x <? y)%float = false /\ (y <? x)%float = false
  /\ (x <=? y)%float = false /\ (y <=? x)%float = false.
Proof.
  unfold is_NULL, PrimFloat.is_nan.
  rewrite FloatAxioms.eqb_spec, !FloatAxioms.ltb_spec, !FloatAxioms.leb_spec.
  intros H. apply negb_true_iff in H. now apply SF_unordered.
Qed.

Lemma ltb_not_NULL x y :
  (x <? y)%float = true -> is_NULL x = false /\ is_NULL y = false.
Proof.
  intros H. split.
  - destruct (is_NULL x) eqn:E; [|reflexivity].
    destruct (is_NULL_unordered x y E) as (H1 & _). congruence.
  - destruct (is_NULL y) eqn:E; [|reflexivity].
    destruct (is_NULL_unordered y x E) as (_ & H1 & _). congruence.
Qed.

(** ** Rows found again after an [UPDATE] *)

Section Tables.
Context {A : Type}.
Implicit Types (c d : A -> bool) (f : A -> A) (t : list A).

Lemma sql_first_update c d f t :
  (forall r, c (f r) = c r) ->
  sql_first c (sql_update d f t)
  = option_map (fun r => if d r then f r else r) (sql_first c t).
Proof.
  intros Hc. unfold sql_first, sql_update.
  induction t as [|a t IH]; simpl; [reflexivity|].
  destruct (d a) eqn:Hd.
  - rewrite Hc. destruct (c a); [simpl; now rewrite Hd | exact IH].
  - destruct (c a); [simpl; now rewrite Hd | exact IH].
Qed.

Lemma sql_first_app_fresh c t (r : A) :
  existsb c t = false -> c r = true -> sql_first c (t ++ [r]) = Some r.
Proof.
  unfold sql_first. induction t as [|a t IH]; simpl; intros Hn Hr.
  - now rewrite Hr.
  - apply orb_false_iff in Hn as [Ha Ht]. rewrite Ha. now apply IH.
Qed.

Lemma sql_first_app_old c t (r a : A) :
  sql_first c t = Some a -> sql_first c (t ++ [r]) = Some a.
Proof.
  unfold sql_first. induction t as [|b t IH]; simpl; [discriminate|].
  destruct (c b); [trivial | exact IH].
Qed.

Lemma sql_first_holds c t (a : A) : sql_first c t = Some a -> c a = true.
Proof. unfold sql_first. intros H. now apply find_some in H. Qed.
End Tables.

(** An id handed out by [AUTOINCREMENT] is not in the table yet. *)
Lemma next_id_above (ids : list Z) (i : Z) : In i ids -> i < next_id ids.
Proof.
  unfold next_id. induction ids as [|j ids IH]; simpl; [tauto|].
  intros [->|Hi]; [lia | specialize (IH Hi); lia].
Qed.

Lemma next_id_fresh {A : Type} (id : A -> Z) (t : list A) :
  existsb (fun r => id r =? next_id (List.map id t)) t = false.
Proof.
  apply not_true_is_false. intros H.
  apply existsb_exists in H as (r & Hr & He).
  apply Z.eqb_eq in He.
  pose proof (next_id_above (List.map id t) (id r) (in_map id t r Hr)). lia.
Qed.

(** ** Withdrawals: the status update *)

(** A new status other than ['rejected'] touches the [withdrawals] table
    only. *)
Lemma update_withdrawal_status_plain db now withdrawal_id status transaction_id :
  status <> "rejected" ->
  update_withdrawal_status db now withdrawal_id status transaction_id
  = Return tt
      (with_withdrawals
         (sql_update (by_withdrawal_id withdrawal_id)
            (withdrawals.set_status status transaction_id now)
            (db_withdrawals db)) db).
Proof.
  intros Hs. unfold update_withdrawal_status.
  apply String.eqb_neq in Hs. now rewrite Hs.
Qed.

(** The row is found again, with its new status. *)
Lemma get_withdrawal_set_status db now withdrawal_id status transaction_id w :
  get_withdrawal db withdrawal_id = Some w ->
  sql_first (by_withdrawal_id withdrawal_id)
    (sql_update (by_withdrawal_id withdrawal_id)
       (withdrawals.set_status status transaction_id now) (db_withdrawals db))
  = Some (withdrawals.set_status status transaction_id now w).
Proof.
  unfold get_withdrawal. intros Hw.
  rewrite sql_first_update by reflexivity. rewrite Hw. simpl.
  now rewrite (sql_first_holds _ _ _ Hw).
Qed.

(** C1, as the code has it: the status update has no [NotPending] outcome.
    On a withdrawal that is no longer pending, a new status other than
    ['rejected'] returns normally, leaves every row of [users] (so every
    balance) as it was, and overwrites the status, the transaction id and
    [processed_at] of the record. *)
Theorem update_withdrawal_status_settled
  db now withdrawal_id status transaction_id w :
  get_withdrawal db withdrawal_id = Some w ->
  withdrawals.status w <> "pending" ->
  status <> "rejected" ->
  exists db',
    update_withdrawal_status db now withdrawal_id status transaction_id
    = Return tt db'
    /\ db_users db' = db_users db
    /\ get_withdrawal db' withdrawal_id
       = Some (withdrawals.set_status status transaction_id now w).
Proof.
  intros Hw _ Hs. eexists. split; [now apply update_withdrawal_status_plain|].
  split; [reflexivity|].
  unfold get_withdrawal at 1. simpl. now apply get_withdrawal_set_status.
Qed.

Lemma update_withdrawal_status_settled_witness :
  exists db',
    update_withdrawal_status Scenario.approved 3000 1 "paid" (Some "TX1")
    = Return tt db'
    /\ db_users db' = db_users Scenario.approved
    /\ option_map withdrawals.status (get_withdrawal db' 1) = Some "paid".
Proof.
  destruct (update_withdrawal_status_settled Scenario.approved 3000 1 "paid"
              (Some "TX1")
              (withdrawals.set_status "approved" None 2000
                 {| withdrawals.id := 1; withdrawals.user_id := 1;
                    withdrawals.amount := 120.0%float;
                    withdrawals.method := "Bkash";
                    withdrawals.mobile_number := "01700000000";
                    withdrawals.status := "pending";
                    withdrawals.transaction_id := None;
                    withdrawals.processed_at := None |}))
    as (db' & Hr & Hu & Hw).
  - vm_compute. reflexivity.
  - simpl. discriminate.
  - discriminate.
  - exists db'. split; [exact Hr|]. split; [exact Hu|]. now rewrite Hw.
Defined.

(** C1, as stated, fails: the withdrawal of the scenario is already
    rejected and the account is back at 150; rejecting it once more returns
    normally and credits the 120 a second time. *)
Lemma second_reject_credits_again :
  option_map withdrawals.status (get_withdrawal Scenario.rejected 1)
  = Some "rejected"
  /\ balance_of Scenario.rejected Scenario.alice = Some 150.0%float
  /\ exists db',
       update_withdrawal_status Scenario.rejected 3000 1 "rejected" None
       = Return tt db'
       /\ balance_of db' Scenario.alice = Some 270.0%float
       /\ balance_of db' Scenario.alice
          <> balance_of Scenario.rejected Scenario.alice.
Proof.
  split; [vm_compute; reflexivity|]. split; [vm_compute; reflexivity|].
  eexists. split; [vm_compute; reflexivity|].
  split; [vm_compute; reflexivity|].
  differ_by (fun o : option float =>
               match o with Some x => (x <? 200)%float | None => false end).
Qed.

(** C3, as the code has it: marking an approved withdrawal ['paid'] sets the
    status of the record and nothing else; no row of [users] changes, so the
    balance keeps its escrowed value and [total_withdrawn] is not increased. *)
Theorem update_withdrawal_status_paid db now withdrawal_id transaction_id w :
  get_withdrawal db withdrawal_id = Some w ->
  withdrawals.status w = "approved" ->
  exists db',
    update_withdrawal_status db now withdrawal_id "paid" transaction_id
    = Return tt db'
    /\ option_map withdrawals.status (get_withdrawal db' withdrawal_id)
       = Some "paid"
    /\ db_users db' = db_users db
    /\ (forall t, balance_of db' t = balance_of db t)
    /\ (forall t, total_withdrawn_of db' t = total_withdrawn_of db t).
Proof.
  intros Hw _. eexists.
  split; [now apply update_withdrawal_status_plain|].
  split; [|repeat split].
  unfold get_withdrawal at 1. simpl.
  now rewrite (get_withdrawal_set_status _ _ _ _ _ _ Hw).
Qed.

Lemma update_withdrawal_status_paid_witness :
  exists db',
    update_withdrawal_status Scenario.approved 3000 1 "paid" None
    = Return tt db'
    /\ total_withdrawn_of db' Scenario.alice
       = total_withdrawn_of Scenario.approved Scenario.alice.
Proof.
  destruct (update_withdrawal_status_paid Scenario.approved 3000 1 None
              (withdrawals.set_status "approved" None 2000
                 {| withdrawals.id := 1; withdrawals.user_id := 1;
                    withdrawals.amount := 120.0%float;
                    withdrawals.method := "Bkash";
                    withdrawals.mobile_number := "01700000000";
                    withdrawals.status := "pending";
                    withdrawals.transaction_id := None;
                    withdrawals.processed_at := None |}))
    as (db' & Hr & _ & _ & _ & Ht).
  - vm_compute. reflexivity.
  - reflexivity.
  - exists db'. split; [exact Hr | apply Ht].
Defined.

(** C3, as stated, fails: the approved withdrawal of 120 is marked paid and
    [total_withdrawn] of its owner stays at 0. *)
Lemma paid_does_not_count_withdrawn :
  option_map withdrawals.status (get_withdrawal Scenario.approved 1)
  = Some "approved"
  /\ option_map withdrawals.amount (get_withdrawal Scenario.approved 1)
     = Some 120.0%float
  /\ total_withdrawn_of Scenario.approved Scenario.alice = Some 0.0%float
  /\ exists db',
       update_withdrawal_status Scenario.approved 3000 1 "paid" (Some "TX1")
       = Return tt db'
       /\ total_withdrawn_of db' Scenario.alice = Some 0.0%float
       /\ total_withdrawn_of db' Scenario.alice <> Some (0.0 + 120.0)%float.
Proof.
  split; [vm_compute; reflexivity|]. split; [vm_compute; reflexivity|].
  split; [vm_compute; reflexivity|].
  eexists. split; [vm_compute; reflexivity|].
  split; [vm_compute; reflexivity|].
  differ_by (fun o : option float =>
               match o with Some x => (x <? 100)%float | None => false end).
Qed.

(** ** Balances: [update_balance] and [create_withdrawal] *)

Lemma rowcount_pos {A : Type} (c : A -> bool) (t : list A) (a : A) :
  In a t -> c a = true -> (0 <? rowcount c t) = true.
Proof.
  unfold rowcount. intros Hin Hc. apply Z.ltb_lt.
  assert (Hf : In a (List.filter c t)) by (apply filter_In; auto).
  destruct (List.filter c t); [destruct Hf | simpl; lia].
Qed.

(** What [update_balance] does to an account that is not banned: the amount,
    of either sign, goes on both columns. *)
Lemma update_balance_credits db telegram_id amount u :
  get_user db telegram_id = Some u ->
  users.is_banned u = 0 ->
  exists db',
    update_balance db telegram_id amount = Return true db'
    /\ get_user db' telegram_id = Some (users.credit amount u).
Proof.
  unfold get_user, update_balance. intros Hu Hb.
  assert (Hc : by_telegram_id telegram_id u && (users.is_banned u =? 0) = true).
  { rewrite (sql_first_holds _ _ _ Hu), Hb. reflexivity. }
  eexists. split.
  - f_equal. apply rowcount_pos with (a := u); [|exact Hc].
    now apply find_some in Hu.
  - simpl. rewrite sql_first_update by reflexivity. rewrite Hu. simpl.
    now rewrite Hc.
Qed.

(** What a call of [create_withdrawal] that returns [True] has done. *)
Lemma create_withdrawal_done db telegram_id amount method mobile db' :
  create_withdrawal db telegram_id amount method mobile = Return true db' ->
  exists u,
    get_user db telegram_id = Some u
    /\ (users.balance u <? amount)%float = false
    /\ is_NULL (users.balance u) = false
    /\ is_NULL amount = false
    /\ db' = with_withdrawals
               (db_withdrawals db ++
                [ {| withdrawals.id :=
                       next_id (List.map withdrawals.id (db_withdrawals db));
                     withdrawals.user_id := users.id u;
                     withdrawals.amount := amount;
                     withdrawals.method := method;
                     withdrawals.mobile_number := mobile;
                     withdrawals.status := "pending";
                     withdrawals.transaction_id := None;
                     withdrawals.processed_at := None |} ])
               (with_users
                  (sql_update (by_telegram_id telegram_id)
                     (fun v => users.set_balance
                                 (users.balance v - amount)%float v)
                     (db_users db)) db).
Proof.
  unfold create_withdrawal, get_user.
  destruct (db_settings db !! "minimum_withdrawal") as [[m|]|];
    [|discriminate..].
  destruct (amount <? m)%float; [discriminate|].
  destruct (sql_first (by_telegram_id telegram_id) (db_users db)) as [u|];
    [|discriminate].
  destruct (is_NULL (users.balance u)) eqn:Hn; [discriminate|].
  destruct (users.balance u <? amount)%float eqn:Hb; [discriminate|].
  destruct (is_NULL amount) eqn:Ha; [discriminate|].
  intros H. injection H as <-. now exists u.
Qed.

(** C2, as the code has it: withdrawal creation is the operation that checks
    the balance.  A request above the balance is refused and changes nothing,
    and a request that is accepted leaves [balance - amount] with
    [amount > balance] false.  [update_balance] has no such check: on an
    account that is not banned it applies the delta whatever its sign. *)
Theorem balance_checked_by_create_withdrawal_only
  db telegram_id u amount method mobile :
  get_user db telegram_id = Some u ->
  ((users.balance u <? amount)%float = true ->
     after db (create_withdrawal db telegram_id amount method mobile) = db
     /\ forall db', create_withdrawal db telegram_id amount method mobile
                    <> Return true db')
  /\ (forall db',
        create_withdrawal db telegram_id amount method mobile = Return true db' ->
        (users.balance u <? amount)%float = false
        /\ balance_of db' telegram_id = Some (users.balance u - amount)%float)
  /\ (users.is_banned u = 0 ->
      forall delta, exists db',
        update_balance db telegram_id delta = Return true db'
        /\ balance_of db' telegram_id = Some (users.balance u + delta)%float).
Proof.
  intros Hu. split; [|split].
  - intros Hlt. split.
    + unfold create_withdrawal. unfold get_user in Hu.
      destruct (db_settings db !! "minimum_withdrawal") as [[m|]|];
        [|reflexivity..].
      destruct (amount <? m)%float; [reflexivity|].
      rewrite Hu, Hlt. now destruct (is_NULL (users.balance u)).
    + intros db' H. apply create_withdrawal_done in H as (v & Hv & Hb & _).
      congruence.
  - intros db' H.
    apply create_withdrawal_done in H as (v & Hv & Hb & _ & _ & ->).
    assert (v = u) by congruence. subst v. split; [exact Hb|].
    unfold balance_of, get_user in *. simpl.
    rewrite sql_first_update by reflexivity. rewrite Hu. simpl.
    now rewrite (sql_first_holds _ _ _ Hu).
  - intros Hb delta.
    destruct (update_balance_credits db telegram_id delta u Hu Hb)
      as (db' & Hr & Hg).
    exists db'. split; [exact Hr|]. unfold balance_of. now rewrite Hg.
Qed.

Lemma balance_checked_by_create_withdrawal_only_witness :
  after Scenario.rewarded
    (create_withdrawal Scenario.rewarded Scenario.alice 200.0%float
       "Bkash" "01700000000") = Scenario.rewarded
  /\ exists db',
       update_balance Scenario.rewarded Scenario.alice (-200.0)%float
       = Return true db'
       /\ balance_of db' Scenario.alice = Some (150.0 + -200.0)%float.
Proof.
  destruct (balance_checked_by_create_withdrawal_only Scenario.rewarded
              Scenario.alice
              (users.credit 150.0%float
                 {| users.id := 1; users.telegram_id := 100;
                    users.username := "alice";
                    users.referral_code := "REF100A1B2C3";
                    users.referred_by := None;
                    users.balance := 0.0%float;
                    users.total_earned := 0.0%float;
                    users.total_withdrawn := 0.0%float;
                    users.is_banned := 0 |})
              200.0%float "Bkash" "01700000000")
    as (Hrefuse & _ & Hupd).
  - vm_compute. reflexivity.
  - split.
    + apply Hrefuse. vm_compute. reflexivity.
    + apply Hupd. reflexivity.
Defined.

(** C2, as stated, fails: a new account has balance 0; [update_balance] with
    -100 is not refused and leaves the balance at -100. *)
Lemma update_balance_overdraws :
  balance_of Scenario.registered Scenario.alice = Some 0.0%float
  /\ exists db',
       update_balance Scenario.registered Scenario.alice (-100.0)%float
       = Return true db'
       /\ balance_of db' Scenario.alice = Some (-100.0)%float
       /\ (-100.0 <? 0.0)%float = true.
Proof.
  split; [vm_compute; reflexivity|].
  eexists. split; [vm_compute; reflexivity|].
  split; vm_compute; reflexivity.
Qed.

(** C8, as the code has it: on an account that is not banned,
    [update_balance] adds the delta to [total_earned] as it does to
    [balance], for a positive delta and for any other. *)
Theorem update_balance_total_earned db telegram_id delta u :
  get_user db telegram_id = Some u ->
  users.is_banned u = 0 ->
  exists db',
    update_balance db telegram_id delta = Return true db'
    /\ total_earned_of db' telegram_id
       = Some (users.total_earned u + delta)%float
    /\ balance_of db' telegram_id = Some (users.balance u + delta)%float.
Proof.
  intros Hu Hb.
  destruct (update_balance_credits db telegram_id delta u Hu Hb)
    as (db' & Hr & Hg).
  exists db'. split; [exact Hr|].
  unfold total_earned_of, balance_of. now rewrite Hg.
Qed.

Lemma update_balance_total_earned_witness :
  exists db',
    update_balance Scenario.registered Scenario.alice 5.0%float
    = Return true db'
    /\ total_earned_of db' Scenario.alice = Some (0.0 + 5.0)%float
    /\ balance_of db' Scenario.alice = Some (0.0 + 5.0)%float.
Proof.
  apply (update_balance_total_earned Scenario.registered Scenario.alice
           5.0%float
           {| users.id := 1; users.telegram_id := 100;
              users.username := "alice";
              users.referral_code := "REF100A1B2C3";
              users.referred_by := None;
              users.balance := 0.0%float;
              users.total_earned := 0.0%float;
              users.total_withdrawn := 0.0%float;
              users.is_banned := 0 |}).
  - vm_compute. reflexivity.
  - reflexivity.
Defined.

(** C8, as stated, fails: the account has earned 150; [update_balance] with
    -30 brings [total_earned] down to 120. *)
Lemma update_balance_lowers_total_earned :
  total_earned_of Scenario.rewarded Scenario.alice = Some 150.0%float
  /\ (-30.0 <=? 0.0)%float = true
  /\ exists db',
       update_balance Scenario.rewarded Scenario.alice (-30.0)%float
       = Return true db'
       /\ total_earned_of db' Scenario.alice = Some 120.0%float
       /\ (120.0 <? 150.0)%float = true
       /\ total_earned_of db' Scenario.alice
          <> total_earned_of Scenario.rewarded Scenario.alice.
Proof.
  split; [vm_compute; reflexivity|]. split; [vm_compute; reflexivity|].
  eexists. split; [vm_compute; reflexivity|].
  split; [vm_compute; reflexivity|]. split; [vm_compute; reflexivity|].
  differ_by (fun o : option float =>
               match o with Some x => (x <? 130)%float | None => false end).
Qed.

(** ** Withdrawals: a request that is rejected *)

(** C7, as the code has it: a withdrawal of [amount] that is accepted on a
    balance [B] and then rejected once leaves [(B - amount) + amount], the
    two operations being those of binary64 arithmetic; the balance is back
    at [B] whenever that sum is [B]. *)
Theorem create_withdrawal_then_reject
  db telegram_id amount method mobile now transaction_id u db1 :
  get_user db telegram_id = Some u ->
  create_withdrawal db telegram_id amount method mobile = Return true db1 ->
  exists db2,
    update_withdrawal_status db1 now
      (next_id (List.map withdrawals.id (db_withdrawals db)))
      "rejected" transaction_id = Return tt db2
    /\ balance_of db2 telegram_id
       = Some ((users.balance u - amount) + amount)%float
    /\ (((users.balance u - amount) + amount)%float = users.balance u ->
        balance_of db2 telegram_id = balance_of db telegram_id).
Proof.
  intros Hu Hc.
  apply create_withdrawal_done in Hc as (v & Hv & _ & _ & _ & ->).
  assert (v = u) by congruence. subst v. clear Hv.
  set (wid := next_id (List.map withdrawals.id (db_withdrawals db))).
  set (w := {| withdrawals.id := wid; withdrawals.user_id := users.id u;
               withdrawals.amount := amount; withdrawals.method := method;
               withdrawals.mobile_number := mobile;
               withdrawals.status := "pending";
               withdrawals.transaction_id := None;
               withdrawals.processed_at := None |}).
  assert (Hw : sql_first (by_withdrawal_id wid)
                 (sql_update (by_withdrawal_id wid)
                    (withdrawals.set_status "rejected" transaction_id now)
                    (db_withdrawals db ++ [w]))
               = Some (withdrawals.set_status "rejected" transaction_id now w)).
  { rewrite sql_first_update by reflexivity.
    rewrite sql_first_app_fresh.
    - simpl. unfold by_withdrawal_id. simpl. now rewrite Z.eqb_refl.
    - apply (next_id_fresh withdrawals.id).
    - unfold by_withdrawal_id. simpl. apply Z.eqb_refl. }
  assert (Hbal : forall db2,
            update_withdrawal_status
              (with_withdrawals (db_withdrawals db ++ [w])
                 (with_users
                    (sql_update (by_telegram_id telegram_id)
                       (fun v => users.set_balance
                                   (users.balance v - amount)%float v)
                       (db_users db)) db))
              now wid "rejected" transaction_id = Return tt db2 ->
            balance_of db2 telegram_id
            = Some ((users.balance u - amount) + amount)%float).
  { intros db2. unfold update_withdrawal_status. simpl. rewrite Hw.
    intros H. injection H as <-.
    unfold balance_of, get_user in *. simpl.
    rewrite !sql_first_update by reflexivity. rewrite Hu. simpl.
    rewrite (sql_first_holds _ _ _ Hu). simpl. now rewrite Z.eqb_refl. }
  eexists. split; [|split].
  - unfold update_withdrawal_status. simpl. rewrite Hw. reflexivity.
  - apply Hbal. unfold update_withdrawal_status. simpl. rewrite Hw. reflexivity.
  - intros He. rewrite (Hbal _ ltac:(unfold update_withdrawal_status; simpl;
                                       rewrite Hw; reflexivity)).
    unfold balance_of. rewrite Hu. simpl. now rewrite He.
Qed.

Lemma create_withdrawal_then_reject_witness :
  exists db2,
    update_withdrawal_status Scenario.requested 2000 1 "rejected" None
    = Return tt db2
    /\ balance_of db2 Scenario.alice = Some ((150.0 - 120.0) + 120.0)%float
    /\ balance_of db2 Scenario.alice
       = balance_of Scenario.rewarded Scenario.alice.
Proof.
  destruct (create_withdrawal_then_reject Scenario.rewarded Scenario.alice
              120.0%float "Bkash" "01700000000" 2000 None
              (users.credit 150.0%float
                 {| users.id := 1; users.telegram_id := 100;
                    users.username := "alice";
                    users.referral_code := "REF100A1B2C3";
                    users.referred_by := None;
                    users.balance := 0.0%float;
                    users.total_earned := 0.0%float;
                    users.total_withdrawn := 0.0%float;
                    users.is_banned := 0 |})
              Scenario.requested)
    as (db2 & Hr & Hb & Hsame).
  - vm_compute. reflexivity.
  - vm_compute. reflexivity.
  - exists db2. split; [exact Hr|]. split; [exact Hb|].
    apply Hsame. vm_compute. reflexivity.
Defined.

(** C7, as stated, fails: an account that has earned 228.4 asks for 100.3,
    which the default minimum of 100 admits, and the request is rejected
    once.  The balance is then 228.40000000000003, a binary64 value above
    228.4. *)
Lemma reject_restores_inexactly :
  balance_of Scenario.rewarded_228_4 Scenario.alice = Some 228.4%float
  /\ exists db1 db2,
       create_withdrawal Scenario.rewarded_228_4 Scenario.alice 100.3%float
         "Bkash" "01700000000" = Return true db1
       /\ update_withdrawal_status db1 2000 1 "rejected" None = Return tt db2
       /\ balance_of db2 Scenario.alice = Some 228.40000000000003%float
       /\ (228.4 <? 228.40000000000003)%float = true
       /\ balance_of db2 Scenario.alice
          <> balance_of Scenario.rewarded_228_4 Scenario.alice.
Proof.
  split; [vm_compute; reflexivity|].
  eexists. eexists. split; [vm_compute; reflexivity|].
  split; [vm_compute; reflexivity|]. split; [vm_compute; reflexivity|].
  split; [vm_compute; reflexivity|].
  differ_by (fun o : option float =>
               match o with Some x => (228.4 <? x)%float | None => false end).
Qed.

(** ** The rate limiter *)

(** A cap above zero is not reached by a counter at zero. *)
Lemma positive_cap_not_reached (cap : float) :
  (0 <? cap)%float = true -> (cap <=? 0)%float = false.
Proof.
  rewrite ltb_spec, leb_spec.
  change (Prim2SF 0) with (S754_zero false).
  destruct (Prim2SF cap) as [s|s| |s m e]; try destruct s;
    cbv [SFltb SFleb SFcompare]; congruence.
Qed.

(** Which of the two rows fails to parse does not matter. *)
Lemma unparsable_caps (m : gmap string setting) :
  m !! "max_ads_per_day" = Some Other_text
  \/ m !! "daily_earning_limit" = Some Other_text ->
  unparsable (m !! "max_ads_per_day")
  || unparsable (m !! "daily_earning_limit") = true.
Proof.
  intros [H|H]; rewrite H; simpl; [reflexivity | apply orb_true_r].
Qed.

Lemma parsable_caps (m : gmap string setting) :
  m !! "max_ads_per_day" <> Some Other_text ->
  m !! "daily_earning_limit" <> Some Other_text ->
  unparsable (m !! "max_ads_per_day")
  || unparsable (m !! "daily_earning_limit") = false.
Proof.
  intros H1 H2.
  destruct (m !! "max_ads_per_day") as [[|]|];
    destruct (m !! "daily_earning_limit") as [[|]|];
    try reflexivity; congruence.
Qed.

(** C6, as the code has it.  For a registered account:
    - when today's counter row exists, the caps are applied to it as the
      specification says: with both caps stored as numbers and an
      [earned_today] that is not [NULL], the call denies exactly when
      [ads_watched >= max_ads_per_day] or
      [earned_today >= daily_earning_limit], and otherwise answers as the
      cooldown does;
    - a cap whose stored text is no number makes the call raise
      [ValueError], whether or not there is a counter row;
    - when there is no counter row and no such text, the caps are not
      consulted at all and the answer is that of the cooldown;
    - so an absent counter reads as zero provided both caps are numbers
      above zero. *)
Theorem can_watch_ad_absent_counter cfg db today now telegram_id user :
  sql_first (by_telegram_id telegram_id) (db_users db) = Some user ->
  (forall limit,
     sql_first (limit_of (users.id user) today) (db_daily_limits db)
     = Some limit ->
     can_watch_ad cfg db today now telegram_id
     = can_earn_absent_as_zero cfg db today now telegram_id
     /\ forall max_ads_per_day daily_earning_limit,
          db_settings db !! "max_ads_per_day" = Some (Number max_ads_per_day) ->
          db_settings db !! "daily_earning_limit"
          = Some (Number daily_earning_limit) ->
          is_NULL (daily_limits.earned_today limit) = false ->
          can_watch_ad cfg db today now telegram_id
          = Return
              (if (max_ads_per_day
                   <=? float_of_int (daily_limits.ads_watched limit))%float
               then (false, "Daily ad limit reached")
               else if (daily_earning_limit
                        <=? daily_limits.earned_today limit)%float
               then (false, "Daily earning limit reached")
               else check_cooldown cfg db now (users.id user))
              db)
  /\ (db_settings db !! "max_ads_per_day" = Some Other_text
      \/ db_settings db !! "daily_earning_limit" = Some Other_text ->
      can_watch_ad cfg db today now telegram_id = Raise ValueError)
  /\ (sql_first (limit_of (users.id user) today) (db_daily_limits db) = None ->
      db_settings db !! "max_ads_per_day" <> Some Other_text ->
      db_settings db !! "daily_earning_limit" <> Some Other_text ->
      can_watch_ad cfg db today now telegram_id
      = Return (check_cooldown cfg db now (users.id user)) db)
  /\ (forall max_ads_per_day daily_earning_limit,
        db_settings db !! "max_ads_per_day" = Some (Number max_ads_per_day) ->
        db_settings db !! "daily_earning_limit"
        = Some (Number daily_earning_limit) ->
        (0 <? max_ads_per_day)%float = true ->
        (0 <? daily_earning_limit)%float = true ->
        can_watch_ad cfg db today now telegram_id
        = can_earn_absent_as_zero cfg db today now telegram_id).
Proof.
  intros Hu. unfold can_watch_ad, can_earn_absent_as_zero. rewrite Hu.
  split; [|split; [|split]].
  - intros limit Hl. rewrite Hl. split; [reflexivity|].
    intros m l Hm Hd Hn. rewrite Hm, Hd, Hn. simpl.
    destruct (m <=? _)%float; [reflexivity|].
    destruct (l <=? _)%float; reflexivity.
  - intros H. now rewrite (unparsable_caps _ H).
  - intros Hl Hm Hd. now rewrite Hl, (parsable_caps _ Hm Hd).
  - intros m l Hm Hd Hmpos Hlpos. rewrite Hm, Hd. simpl.
    destruct (sql_first (limit_of (users.id user) today) (db_daily_limits db));
      [reflexivity|].
    cbn [fst snd float_of_int].
    rewrite (positive_cap_not_reached m Hmpos),
            (positive_cap_not_reached l Hlpos).
    reflexivity.
Qed.

Lemma can_watch_ad_absent_counter_witness :
  can_watch_ad default_Config Scenario.registered "2024-01-01" 1000
    Scenario.alice
  = can_earn_absent_as_zero default_Config Scenario.registered "2024-01-01"
      1000 Scenario.alice
  /\ can_watch_ad default_Config Scenario.registered "2024-01-01" 1000
       Scenario.alice
     = Return (true, "") Scenario.registered.
Proof.
  destruct (can_watch_ad_absent_counter default_Config Scenario.registered
              "2024-01-01" 1000 Scenario.alice
              {| users.id := 1; users.telegram_id := 100;
                 users.username := "alice";
                 users.referral_code := "REF100A1B2C3";
                 users.referred_by := None;
                 users.balance := 0.0%float;
                 users.total_earned := 0.0%float;
                 users.total_withdrawn := 0.0%float;
                 users.is_banned := 0 |})
    as (_ & _ & Hnone & H).
  - vm_compute. reflexivity.
  - split.
    + apply (H 10.0%float 50.0%float); vm_compute; reflexivity.
    + rewrite Hnone.
      * vm_compute. reflexivity.
      * vm_compute. reflexivity.
      * vm_compute. discriminate.
      * vm_compute. discriminate.
Defined.

(** C6, as stated, fails: with [max_ads_per_day = 0] and no counter row for
    today the account is allowed, where a counter read as zero would deny. *)
Lemma no_counter_row_escapes_zero_cap :
  db_settings Scenario.no_ads_allowed !! "max_ads_per_day"
  = Some (Number 0.0%float)
  /\ db_daily_limits Scenario.no_ads_allowed = []
  /\ seen (can_watch_ad default_Config Scenario.no_ads_allowed "2024-01-01"
             1000 Scenario.alice) = inl (true, "")
  /\ seen (can_earn_absent_as_zero default_Config Scenario.no_ads_allowed
             "2024-01-01" 1000 Scenario.alice)
     = inl (false, "Daily ad limit reached").
Proof. repeat split; vm_compute; reflexivity. Qed.

(** The cooldown of [can_watch_ad] does not depend on the settings table:
    whatever is stored under a key other than the two caps, the answer is
    the same. *)
Lemma can_watch_ad_update_setting cfg db key value today now telegram_id :
  key <> "max_ads_per_day" ->
  key <> "daily_earning_limit" ->
  seen (can_watch_ad cfg (after db (update_setting db key value)) today now
          telegram_id)
  = seen (can_watch_ad cfg db today now telegram_id).
Proof.
  intros H1 H2. unfold can_watch_ad, update_setting, after. simpl.
  rewrite !lookup_insert_ne by assumption.
  destruct (sql_first (by_telegram_id telegram_id) (db_users db));
    [|reflexivity].
  destruct (_ || _); [reflexivity|].
  destruct (sql_first _ (db_daily_limits db)); [|reflexivity].
  destruct (db_settings db !! "max_ads_per_day") as [[|]|]; [|reflexivity..].
  destruct (_ <=? _)%float; [reflexivity|].
  destruct (db_settings db !! "daily_earning_limit") as [[|]|];
    [|reflexivity..].
  destruct (is_NULL _); [reflexivity|].
  destruct (_ <=? _)%float; reflexivity.
Qed.

(** C4 at the failing input: the stored cooldown is 10 seconds, the last
    reward was 30 seconds ago, and the account is still denied, against the
    60 seconds of [Config.AD_COOLDOWN_SECONDS]. *)
Lemma can_watch_ad_ignores_stored_cooldown :
  db_settings Scenario.cooldown_10 !! "ad_cooldown" = Some (Number 10.0%float)
  /\ last_watched Scenario.cooldown_10 1 = Some 1000
  /\ 10 <= 1030 - 1000
  /\ seen (can_watch_ad default_Config Scenario.cooldown_10 "2024-01-01" 1030
             Scenario.alice)
     = inl (false, "Wait 60 seconds between ads").
Proof. repeat split; vm_compute; try reflexivity; discriminate. Qed.

(** ** Referrals *)

(** No call of [register_user] credits anybody: whatever its arguments and
    its outcome, the rows of [earnings] are those of before and every
    account that existed is found as it was. *)
Lemma register_user_credits_nobody db telegram_id username referred_by hex6 :
  let db' := after db (register_user db telegram_id username referred_by hex6) in
  db_earnings db' = db_earnings db
  /\ forall t u, get_user db t = Some u -> get_user db' t = Some u.
Proof.
  unfold register_user.
  destruct (users_conflict _ _ _); [simpl; auto|].
  destruct (truthy referred_by).
  - unfold add_referral_earning.
    destruct (db_settings db !! "referral_bonus") as [[|]|]; simpl; auto.
  - simpl. split; [reflexivity|].
    intros t u Hu. unfold get_user in *. simpl.
    now apply sql_first_app_old.
Qed.

(** With a referrer given, a registration that passes the uniqueness check
    ends in the "database is locked" error, as long as the referral bonus is
    configured (as [init_database] makes sure). *)
Lemma register_user_referred_raises db telegram_id username referrer hex6 bonus :
  users_conflict telegram_id ("REF" ++ str telegram_id ++ hex6)%string
    (db_users db) = false ->
  referrer <> 0 ->
  db_settings db !! "referral_bonus" = Some (Number bonus) ->
  register_user db telegram_id username (Some referrer) hex6
  = Raise OperationalError.
Proof.
  intros Hc Hr Hb. unfold register_user. rewrite Hc. simpl.
  apply Z.eqb_neq in Hr. rewrite Hr. simpl.
  unfold add_referral_earning. now rewrite Hb.
Qed.

(** A registration for a [telegram_id] that is taken returns [False] and
    changes nothing. *)
Lemma register_user_duplicate db telegram_id username referred_by hex6 u :
  get_user db telegram_id = Some u ->
  register_user db telegram_id username referred_by hex6 = Return false db.
Proof.
  unfold get_user, register_user, users_conflict. intros Hu.
  replace (existsb _ (db_users db)) with true; [reflexivity|].
  symmetry. apply existsb_exists. exists u.
  apply find_some in Hu as [Hin Ht]. split; [exact Hin|]. now rewrite Ht.
Qed.

(** [add_referral_earning], called when no other connection is writing,
    credits the referrer without looking at [is_banned]. *)
Lemma add_referral_earning_credits db referrer_id referred_id bonus u :
  db_settings db !! "referral_bonus" = Some (Number bonus) ->
  is_NULL bonus = false ->
  get_user db referrer_id = Some u ->
  exists db',
    add_referral_earning false db referrer_id referred_id = Return tt db'
    /\ get_user db' referrer_id = Some (users.credit bonus u).
Proof.
  unfold get_user, add_referral_earning. intros Hb Hn Hu. rewrite Hb.
  assert (H : sql_first (by_telegram_id referrer_id)
                (sql_update (by_telegram_id referrer_id) (users.credit bonus)
                   (db_users db)) = Some (users.credit bonus u)).
  { rewrite sql_first_update by reflexivity. rewrite Hu. simpl.
    now rewrite (sql_first_holds _ _ _ Hu). }
  rewrite H, Hn. eexists. split; [reflexivity|]. simpl. exact H.
Qed.

(** C5 at the failing input: the referrer exists and is not banned, the
    bonus is configured, and the registration of the referred account
    raises; the referrer has no credit and no earning event, and the new
    account is not there either. *)
Lemma register_user_with_referrer_raises :
  option_map users.is_banned (get_user Scenario.registered Scenario.alice)
  = Some 0
  /\ db_settings Scenario.registered !! "referral_bonus"
     = Some (Number 10.0%float)
  /\ register_user Scenario.registered Scenario.bob "bob"
       (Some Scenario.alice) "F00BA4" = Raise OperationalError
  /\ balance_of
       (after Scenario.registered
          (register_user Scenario.registered Scenario.bob "bob"
             (Some Scenario.alice) "F00BA4")) Scenario.alice = Some 0.0%float
  /\ db_earnings
       (after Scenario.registered
          (register_user Scenario.registered Scenario.bob "bob"
             (Some Scenario.alice) "F00BA4")) = [].
Proof. repeat split; vm_compute; reflexivity. Qed.

(** C9 at the failing input: the registration of the referred account
    raises, and so does the same call made again; the referrer, who should
    hold the bonus of 10 once, holds nothing after either. *)
Lemma register_user_retry_never_credits :
  register_user Scenario.registered Scenario.bob "bob" (Some Scenario.alice)
    "F00BA4" = Raise OperationalError
  /\ register_user
       (after Scenario.registered
          (register_user Scenario.registered Scenario.bob "bob"
             (Some Scenario.alice) "F00BA4"))
       Scenario.bob "bob" (Some Scenario.alice) "0DDBA1"
     = Raise OperationalError
  /\ balance_of
       (after
          (after Scenario.registered
             (register_user Scenario.registered Scenario.bob "bob"
                (Some Scenario.alice) "F00BA4"))
          (register_user
             (after Scenario.registered
                (register_user Scenario.registered Scenario.bob "bob"
                   (Some Scenario.alice) "F00BA4"))
             Scenario.bob "bob" (Some Scenario.alice) "0DDBA1"))
       Scenario.alice = Some 0.0%float
  /\ get_user
       (after Scenario.registered
          (register_user Scenario.registered Scenario.bob "bob"
             (Some Scenario.alice) "F00BA4"))
       Scenario.bob = None.
Proof. repeat split; vm_compute; reflexivity. Qed.

(** ** Referral statistics *)

Lemma filter_none {A : Type} (c : A -> bool) (t : list A) :
  (forall a, In a t -> c a = false) -> List.filter c t = [].
Proof.
  induction t as [|a t IH]; simpl; intros H; [reflexivity|].
  rewrite (H a) by auto. apply IH. auto.
Qed.



(** * Further properties of the ledger *)

(** ** More on tables *)

Lemma map_sql_update {A K : Type} (key : A -> K) (c : A -> bool)
  (f : A -> A) (t : list A) :
  (forall r, key (f r) = key r) ->
  List.map key (sql_update c f t) = List.map key t.
Proof.
  intros Hk. unfold sql_update. rewrite List.map_map.
  apply List.map_ext. intros r. destruct (c r); auto.
Qed.

Lemma sql_update_none {A : Type} (c : A -> bool) (f : A -> A) (t : list A) :
  (forall r, In r t -> c r = false) -> sql_update c f t = t.
Proof.
  unfold sql_update. induction t as [|a t IH]; simpl; intros H; [reflexivity|].
  rewrite (H a) by auto. f_equal. apply IH. auto.
Qed.

Lemma existsb_weaken {A : Type} (c d : A -> bool) (t : list A) :
  (forall r, c r = true -> d r = true) ->
  existsb d t = false -> existsb c t = false.
Proof.
  intros Hcd Hd. apply not_true_is_false. intros Hc.
  apply existsb_exists in Hc as (r & Hr & Hcr).
  assert (existsb d t = true) by (apply existsb_exists; eauto). congruence.
Qed.

Lemma with_users_same db : with_users (db_users db) db = db.
Proof. destruct db; reflexivity. Qed.

Lemma with_withdrawals_same db : with_withdrawals (db_withdrawals db) db = db.
Proof. destruct db; reflexivity. Qed.

(** The account of a [telegram_id] after an [UPDATE] of [users] that leaves
    the [telegram_id] column alone. *)
Lemma get_user_sql_update (c : users.row -> bool) (f : users.row -> users.row)
  (us : list users.row) t u :
  (forall r, users.telegram_id (f r) = users.telegram_id r) ->
  sql_first (by_telegram_id t) us = Some u ->
  sql_first (by_telegram_id t) (sql_update c f us)
  = Some (if c u then f u else u).
Proof.
  intros Hf Hu. rewrite sql_first_update.
  - now rewrite Hu.
  - intros r. unfold by_telegram_id. now rewrite Hf.
Qed.

(** ** Accounts *)

(** The row a registration without referrer inserts; [start] relies on it. *)
Lemma register_user_new_account db telegram_id username referred_by hex6 :
  users_conflict telegram_id ("REF" ++ str telegram_id ++ hex6)%string
    (db_users db) = false ->
  truthy referred_by = false ->
  exists db',
    register_user db telegram_id username referred_by hex6 = Return true db'
    /\ get_user db' telegram_id
       = Some {| users.id := next_id (List.map users.id (db_users db));
                 users.telegram_id := telegram_id;
                 users.username := username;
                 users.referral_code :=
                   ("REF" ++ str telegram_id ++ hex6)%string;
                 users.referred_by := referred_by;
                 users.balance := 0.0%float;
                 users.total_earned := 0.0%float;
                 users.total_withdrawn := 0.0%float;
                 users.is_banned := 0 |}
    /\ (forall t u, get_user db t = Some u -> get_user db' t = Some u)
    /\ db_earnings db' = db_earnings db.
Proof.
  intros Hc Ht. unfold register_user. rewrite Hc, Ht.
  eexists. split; [reflexivity|]. split; [|split; [|reflexivity]].
  - unfold get_user. simpl. apply sql_first_app_fresh.
    + revert Hc. apply existsb_weaken. intros r Hr. now rewrite Hr.
    + unfold by_telegram_id. simpl. apply Z.eqb_refl.
  - intros t u Hu. unfold get_user in *. simpl. now apply sql_first_app_old.
Qed.

(** A registration without a referrer, for an id and a referral code that
    are free, returns [True]; the account is then found, with nothing on it
    and not banned, and the accounts and earnings of before are as they
    were. *)
Theorem register_user_registers db telegram_id username referred_by hex6 :
  users_conflict telegram_id ("REF" ++ str telegram_id ++ hex6)%string
    (db_users db) = false ->
  truthy referred_by = false ->
  exists db',
    register_user db telegram_id username referred_by hex6 = Return true db'
    /\ get_user db' telegram_id
       = Some {| users.id := next_id (List.map users.id (db_users db));
                 users.telegram_id := telegram_id;
                 users.username := username;
                 users.referral_code :=
                   ("REF" ++ str telegram_id ++ hex6)%string;
                 users.referred_by := referred_by;
                 users.balance := 0.0%float;
                 users.total_earned := 0.0%float;
                 users.total_withdrawn := 0.0%float;
                 users.is_banned := 0 |}
    /\ (forall t u, get_user db t = Some u -> get_user db' t = Some u)
    /\ db_earnings db' = db_earnings db.
Proof. apply register_user_new_account. Qed.

Lemma register_user_registers_witness :
  exists db',
    register_user Scenario.registered Scenario.bob "bob" None "F00BA4"
    = Return true db'
    /\ balance_of db' Scenario.bob = Some 0.0%float
    /\ get_user db' Scenario.alice = get_user Scenario.registered Scenario.alice.
Proof.
  destruct (register_user_registers Scenario.registered Scenario.bob "bob"
              None "F00BA4") as (db' & Hr & Hg & Hold & _).
  - vm_compute. reflexivity.
  - reflexivity.
  - exists db'. split; [exact Hr|]. split.
    + unfold balance_of. now rewrite Hg.
    + destruct (get_user Scenario.registered Scenario.alice) as [u|] eqn:Hu.
      * now apply Hold.
      * vm_compute in Hu. discriminate Hu.
Defined.

(** A registration with a referrer commits nothing; [start] relies on it. *)
Lemma register_user_referred_fails
  db telegram_id username referrer hex6 :
  referrer <> 0 ->
  (forall db', register_user db telegram_id username (Some referrer) hex6
               <> Return true db')
  /\ after db (register_user db telegram_id username (Some referrer) hex6) = db.
Proof.
  intros Hr. apply Z.eqb_neq in Hr.
  unfold register_user, add_referral_earning. simpl. rewrite Hr. simpl.
  destruct (users_conflict _ _ _); [split; [discriminate|reflexivity]|].
  destruct (db_settings db !! "referral_bonus") as [[|]|];
    split; try discriminate; reflexivity.
Qed.

(** With a referrer given, [register_user] never returns [True] and never
    changes the file: it returns [False] on a conflict and raises
    otherwise. *)
Theorem register_user_referred_never_succeeds
  db telegram_id username referrer hex6 :
  referrer <> 0 ->
  (forall db', register_user db telegram_id username (Some referrer) hex6
               <> Return true db')
  /\ after db (register_user db telegram_id username (Some referrer) hex6) = db.
Proof. apply register_user_referred_fails. Qed.

Lemma register_user_referred_never_succeeds_witness :
  after Scenario.registered
    (register_user Scenario.registered Scenario.bob "bob"
       (Some Scenario.alice) "F00BA4") = Scenario.registered.
Proof.
  apply (register_user_referred_never_succeeds Scenario.registered
           Scenario.bob "bob" Scenario.alice "F00BA4").
  discriminate.
Defined.

(** [update_balance] on an id that is unknown, or whose account is banned,
    returns [False] and changes nothing. *)
Theorem update_balance_refused db telegram_id amount :
  (forall u, In u (db_users db) -> users.telegram_id u = telegram_id ->
             users.is_banned u <> 0) ->
  update_balance db telegram_id amount = Return false db.
Proof.
  intros Hb. unfold update_balance.
  assert (Hc : forall r, In r (db_users db) ->
            by_telegram_id telegram_id r && (users.is_banned r =? 0) = false).
  { intros r Hr. unfold by_telegram_id.
    destruct (users.telegram_id r =? telegram_id) eqn:Ht; [|reflexivity].
    apply Z.eqb_eq in Ht. simpl. apply Z.eqb_neq. now apply Hb. }
  rewrite sql_update_none by exact Hc. unfold rowcount.
  rewrite filter_none by exact Hc. now rewrite with_users_same.
Qed.

Lemma update_balance_refused_witness :
  update_balance Scenario.registered Scenario.bob 5.0%float
  = Return false Scenario.registered.
Proof.
  apply update_balance_refused.
  intros u Hu. vm_compute in Hu. destruct Hu as [<-|[]]. discriminate.
Defined.

(** No call removes an account, and a call changes at most the [balance] and
    the [total_earned] of one: its row id, its names, its referral code and
    referrer, its [total_withdrawn] and its ban flag stay. *)
Theorem run_keeps_accounts db c telegram_id u :
  get_user db telegram_id = Some u ->
  exists u',
    get_user (run db c) telegram_id = Some u'
    /\ users.id u' = users.id u
    /\ users.telegram_id u' = users.telegram_id u
    /\ users.username u' = users.username u
    /\ users.referral_code u' = users.referral_code u
    /\ users.referred_by u' = users.referred_by u
    /\ users.total_withdrawn u' = users.total_withdrawn u
    /\ users.is_banned u' = users.is_banned u.
Proof.
  intros Hu.
  assert (Hsame : exists u', get_user db telegram_id = Some u'
            /\ users.id u' = users.id u
            /\ users.telegram_id u' = users.telegram_id u
            /\ users.username u' = users.username u
            /\ users.referral_code u' = users.referral_code u
            /\ users.referred_by u' = users.referred_by u
            /\ users.total_withdrawn u' = users.total_withdrawn u
            /\ users.is_banned u' = users.is_banned u)
    by (exists u; repeat split; assumption).
  assert (Hupd : forall (d : users.row -> bool) (f : users.row -> users.row)
                   (db0 : Store),
            (forall r, users.telegram_id (f r) = users.telegram_id r) ->
            (forall r, users.id (f r) = users.id r
                       /\ users.username (f r) = users.username r
                       /\ users.referral_code (f r) = users.referral_code r
                       /\ users.referred_by (f r) = users.referred_by r
                       /\ users.total_withdrawn (f r) = users.total_withdrawn r
                       /\ users.is_banned (f r) = users.is_banned r) ->
            exists u',
              sql_first (by_telegram_id telegram_id)
                (sql_update d f (db_users db)) = Some u'
              /\ users.id u' = users.id u
              /\ users.telegram_id u' = users.telegram_id u
              /\ users.username u' = users.username u
              /\ users.referral_code u' = users.referral_code u
              /\ users.referred_by u' = users.referred_by u
              /\ users.total_withdrawn u' = users.total_withdrawn u
              /\ users.is_banned u' = users.is_banned u).
  { intros d f _ Ht Hf. eexists. split.
    - apply get_user_sql_update; [exact Ht | exact Hu].
    - destruct (d u); [|repeat split; reflexivity].
      destruct (Hf u) as (? & ? & ? & ? & ? & ?). rewrite Ht.
      repeat split; assumption. }
  destruct c as [cfg|t n r h|t a|r d|day now t ad x|t a m p|now w s tx|k v
                |ti de e]; simpl.
  - unfold init_database, get_user.
    destruct (sql_count _ _ =? 0); [destruct (is_NULL _)|]; simpl;
      exact Hsame.
  - exists u. split; [|repeat split].
    now apply (register_user_credits_nobody db t n r h).
  - unfold update_balance, get_user. simpl.
    apply (Hupd _ _ db); intros; repeat split; reflexivity.
  - unfold add_referral_earning.
    destruct (db_settings db !! "referral_bonus") as [[bonus|]|];
      [|exact Hsame..].
    destruct (sql_first _ (sql_update _ _ _)); [|exact Hsame].
    destruct (is_NULL bonus); [exact Hsame|].
    unfold get_user. simpl.
    apply (Hupd _ _ db); intros; repeat split; reflexivity.
  - unfold record_ad_watch.
    destruct (sql_first _ (db_users db)); [|exact Hsame].
    destruct (is_NULL x); [exact Hsame|].
    unfold get_user. simpl.
    apply (Hupd _ _ db); intros; repeat split; reflexivity.
  - unfold create_withdrawal.
    destruct (db_settings db !! "minimum_withdrawal") as [[min|]|];
      [|exact Hsame..].
    destruct (_ <? _)%float; [exact Hsame|].
    destruct (sql_first _ (db_users db)); [|exact Hsame].
    destruct (is_NULL _); [exact Hsame|].
    destruct (_ <? _)%float; [exact Hsame|].
    destruct (is_NULL a); [exact Hsame|].
    unfold get_user. simpl.
    apply (Hupd _ _ db); intros; repeat split; reflexivity.
  - unfold update_withdrawal_status.
    destruct (s =? "rejected")%string; [|exact Hsame].
    destruct (sql_first _ _); [|exact Hsame].
    unfold get_user. simpl.
    apply (Hupd _ _ db); intros; repeat split; reflexivity.
  - exact Hsame.
  - unfold add_ad. destruct (is_NULL e); exact Hsame.
Qed.

Lemma run_keeps_accounts_witness :
  total_withdrawn_of
    (run Scenario.requested
       (Update_withdrawal_status 2000 1 "rejected" None)) Scenario.alice
  = Some 0.0%float.
Proof.
  destruct (run_keeps_accounts Scenario.requested
              (Update_withdrawal_status 2000 1 "rejected" None) Scenario.alice
              (users.set_balance 30.0%float
                 (users.credit 150.0%float
                    {| users.id := 1; users.telegram_id := 100;
                       users.username := "alice";
                       users.referral_code := "REF100A1B2C3";
                       users.referred_by := None;
                       users.balance := 0.0%float;
                       users.total_earned := 0.0%float;
                       users.total_withdrawn := 0.0%float;
                       users.is_banned := 0 |})))
    as (u' & Hg & _ & _ & _ & _ & _ & Hw & _).
  - vm_compute. reflexivity.
  - unfold total_withdrawn_of. rewrite Hg. simpl. now rewrite Hw.
Defined.

(** ** Withdrawals *)

(** A withdrawal that is accepted is found under the id it was given, as a
    pending row of the account with the amount, method and number of the
    request; the withdrawals of before are found as they were. *)
Theorem create_withdrawal_recorded db telegram_id amount method mobile db' :
  create_withdrawal db telegram_id amount method mobile = Return true db' ->
  exists u,
    get_user db telegram_id = Some u
    /\ get_withdrawal db'
         (next_id (List.map withdrawals.id (db_withdrawals db)))
       = Some {| withdrawals.id :=
                   next_id (List.map withdrawals.id (db_withdrawals db));
                 withdrawals.user_id := users.id u;
                 withdrawals.amount := amount;
                 withdrawals.method := method;
                 withdrawals.mobile_number := mobile;
                 withdrawals.status := "pending";
                 withdrawals.transaction_id := None;
                 withdrawals.processed_at := None |}
    /\ forall i w, get_withdrawal db i = Some w -> get_withdrawal db' i = Some w.
Proof.
  intros H. apply create_withdrawal_done in H as (u & Hu & _ & _ & _ & ->).
  exists u. split; [exact Hu|]. unfold get_withdrawal. simpl. split.
  - apply sql_first_app_fresh.
    + apply (next_id_fresh withdrawals.id).
    + unfold by_withdrawal_id. simpl. apply Z.eqb_refl.
  - intros i w. apply sql_first_app_old.
Qed.

Lemma create_withdrawal_recorded_witness :
  option_map withdrawals.status (get_withdrawal Scenario.requested 1)
  = Some "pending".
Proof.
  destruct (create_withdrawal_recorded Scenario.rewarded Scenario.alice
              120.0%float "Bkash" "01700000000" Scenario.requested)
    as (u & _ & Hw & _).
  - vm_compute. reflexivity.
  - change (next_id (List.map withdrawals.id
                       (db_withdrawals Scenario.rewarded))) with 1 in Hw.
    now rewrite Hw.
Defined.

(** The ways [create_withdrawal] ends without a withdrawal.  An amount below
    the stored minimum gives [False]; so does an amount above the balance;
    an id that is not registered gives no [False] but a [TypeError], once the
    amount has passed the minimum.  None of them changes the file. *)
Theorem create_withdrawal_refusals db telegram_id amount method mobile min :
  db_settings db !! "minimum_withdrawal" = Some (Number min) ->
  ((amount <? min)%float = true ->
     create_withdrawal db telegram_id amount method mobile = Return false db)
  /\ ((amount <? min)%float = false ->
      get_user db telegram_id = None ->
      create_withdrawal db telegram_id amount method mobile = Raise TypeError)
  /\ (forall u,
        (amount <? min)%float = false ->
        get_user db telegram_id = Some u ->
        (users.balance u <? amount)%float = true ->
        create_withdrawal db telegram_id amount method mobile = Return false db).
Proof.
  intros Hm. unfold create_withdrawal, get_user. rewrite Hm.
  split; [|split].
  - intros ->. reflexivity.
  - intros -> ->. reflexivity.
  - intros u -> -> Hb. rewrite Hb.
    now rewrite (proj1 (ltb_not_NULL _ _ Hb)).
Qed.

Lemma create_withdrawal_refusals_witness :
  create_withdrawal Scenario.rewarded Scenario.alice 60.0%float "Bkash"
    "01700000000" = Return false Scenario.rewarded
  /\ create_withdrawal Scenario.rewarded Scenario.bob 120.0%float "Bkash"
       "01700000000" = Raise TypeError.
Proof.
  destruct (create_withdrawal_refusals Scenario.rewarded Scenario.alice
              60.0%float "Bkash" "01700000000" 100.0%float) as (H1 & _ & _).
  { vm_compute. reflexivity. }
  destruct (create_withdrawal_refusals Scenario.rewarded Scenario.bob
              120.0%float "Bkash" "01700000000" 100.0%float) as (_ & H2 & _).
  { vm_compute. reflexivity. }
  split.
  - apply H1. vm_compute. reflexivity.
  - apply H2; vm_compute; reflexivity.
Defined.

(** A status update for an id that no withdrawal has changes nothing,
    whatever the status, ['rejected'] included. *)
Theorem update_withdrawal_status_unknown
  db now withdrawal_id status transaction_id :
  get_withdrawal db withdrawal_id = None ->
  update_withdrawal_status db now withdrawal_id status transaction_id
  = Return tt db.
Proof.
  unfold get_withdrawal, update_withdrawal_status, sql_first. intros Hn.
  rewrite sql_update_none by (apply find_none; exact Hn).
  unfold sql_first. rewrite Hn, with_withdrawals_same.
  destruct (status =? "rejected")%string; reflexivity.
Qed.

Lemma update_withdrawal_status_unknown_witness :
  update_withdrawal_status Scenario.requested 2000 7 "rejected" None
  = Return tt Scenario.requested.
Proof.
  apply update_withdrawal_status_unknown. vm_compute. reflexivity.
Defined.

(** A rejection pays the amount of the withdrawal to the account whose row
    id the withdrawal carries, and leaves every other account as it was. *)
Theorem reject_refunds_owner db now withdrawal_id transaction_id w :
  get_withdrawal db withdrawal_id = Some w ->
  exists db',
    update_withdrawal_status db now withdrawal_id "rejected" transaction_id
    = Return tt db'
    /\ forall t u,
         get_user db t = Some u ->
         get_user db' t
         = Some (if users.id u =? withdrawals.user_id w
                 then users.set_balance
                        (users.balance u + withdrawals.amount w)%float u
                 else u).
Proof.
  intros Hw. unfold update_withdrawal_status. simpl.
  rewrite (get_withdrawal_set_status _ _ _ _ _ _ Hw).
  eexists. split; [reflexivity|].
  intros t u Hu. unfold get_user in *. simpl.
  apply (get_user_sql_update
           (fun v => users.id v =? withdrawals.user_id w)
           (fun v => users.set_balance
                       (users.balance v + withdrawals.amount w)%float v));
    [reflexivity | exact Hu].
Qed.

Lemma reject_refunds_owner_witness :
  exists db',
    update_withdrawal_status Scenario.requested 2000 1 "rejected" None
    = Return tt db'
    /\ balance_of db' Scenario.alice = Some (30.0 + 120.0)%float.
Proof.
  destruct (reject_refunds_owner Scenario.requested 2000 1 None
              {| withdrawals.id := 1; withdrawals.user_id := 1;
                 withdrawals.amount := 120.0%float;
                 withdrawals.method := "Bkash";
                 withdrawals.mobile_number := "01700000000";
                 withdrawals.status := "pending";
                 withdrawals.transaction_id := None;
                 withdrawals.processed_at := None |})
    as (db' & Hr & Hg).
  - vm_compute. reflexivity.
  - exists db'. split; [exact Hr|].
    destruct (get_user Scenario.requested Scenario.alice) as [u|] eqn:Hu.
    + unfold balance_of. rewrite (Hg _ _ Hu).
      vm_compute in Hu. injection Hu as <-. reflexivity.
    + vm_compute in Hu. discriminate Hu.
Defined.

(** ** Rewards *)

Lemma existsb_find {A : Type} (c : A -> bool) (t : list A) :
  existsb c t = match List.find c t with Some _ => true | None => false end.
Proof.
  induction t as [|a t IH]; simpl; [reflexivity|].
  destruct (c a); [reflexivity | exact IH].
Qed.

Lemma filter_app_one {A : Type} (c : A -> bool) (t : list A) (a : A) :
  List.filter c (t ++ [a]) = (List.filter c t ++ if c a then [a] else [])%list.
Proof. rewrite List.filter_app. simpl. now destruct (c a). Qed.

Lemma sql_max_app_ge (xs : list Z) (s : Z) :
  exists m, sql_max (xs ++ [s]) = Some m /\ s <= m.
Proof.
  destruct xs as [|x xs]; simpl.
  - exists s. split; [reflexivity | lia].
  - rewrite fold_left_app. simpl. eexists. split; [reflexivity | lia].
Qed.

(** What [record_ad_watch] has written when it returns. *)
Lemma record_ad_watch_done db today now telegram_id ad_id amount db' :
  record_ad_watch db today now telegram_id ad_id amount = Return tt db' ->
  exists u,
    get_user db telegram_id = Some u
    /\ db_ads db' = db_ads db
    /\ db_settings db' = db_settings db
    /\ db_withdrawals db' = db_withdrawals db
    /\ db_user_ads db'
       = (db_user_ads db ++
          [ {| user_ads.id := next_id (List.map user_ads.id (db_user_ads db));
               user_ads.user_id := users.id u;
               user_ads.ad_id := ad_id;
               user_ads.watched_at := now |} ])%list
    /\ db_users db'
       = sql_update (by_telegram_id telegram_id) (users.credit amount)
           (db_users db)
    /\ db_earnings db'
       = (db_earnings db ++
          [ {| earnings.id := next_id (List.map earnings.id (db_earnings db));
               earnings.user_id := users.id u;
               earnings.amount := amount;
               earnings.type := "ad";
               earnings.description := "Ad watch" |} ])%list
    /\ db_daily_limits db'
       = (if existsb (limit_of (users.id u) today) (db_daily_limits db)
         then sql_update (limit_of (users.id u) today)
                (daily_limits.bump amount) (db_daily_limits db)
         else (db_daily_limits db ++
               [ {| daily_limits.id :=
                      autoincrement (db_daily_limits_seq db)
                        (List.map daily_limits.id (db_daily_limits db));
                    daily_limits.user_id := users.id u;
                    daily_limits.date := today;
                    daily_limits.ads_watched := 1;
                    daily_limits.earned_today := amount |} ])%list)
    /\ db_daily_limits_seq db'
       = autoincrement (db_daily_limits_seq db)
           (List.map daily_limits.id (db_daily_limits db))
    /\ is_NULL amount = false.
Proof.
  unfold record_ad_watch, get_user.
  destruct (sql_first (by_telegram_id telegram_id) (db_users db)) as [u|];
    [|discriminate].
  destruct (is_NULL amount); [discriminate|].
  intros H. injection H as <-. exists u. repeat split; reflexivity.
Qed.

(** The account is found after the reward, with the amount on its balance
    and on its [total_earned]. *)
Lemma record_ad_watch_credits db today now telegram_id ad_id amount db' u :
  record_ad_watch db today now telegram_id ad_id amount = Return tt db' ->
  get_user db telegram_id = Some u ->
  get_user db' telegram_id = Some (users.credit amount u).
Proof.
  intros H Hu.
  apply record_ad_watch_done in H as (v & Hv & _ & _ & _ & _ & Hus & _).
  unfold get_user in *. rewrite Hus.
  rewrite (get_user_sql_update (by_telegram_id telegram_id)
             (users.credit amount) _ _ u) by (reflexivity || exact Hu).
  now rewrite (sql_first_holds _ _ _ Hu).
Qed.

(** The cooldown that a reward starts; [watch_ad] relies on it. *)
Lemma record_ad_watch_then_cooldown
  cfg db today watched_at telegram_id ad_id amount db' today' now :
  record_ad_watch db today watched_at telegram_id ad_id amount
  = Return tt db' ->
  existsb (fun a => ads.id a =? ad_id) (db_ads db) = true ->
  now - watched_at < AD_COOLDOWN_SECONDS cfg ->
  forall reason,
    seen (can_watch_ad cfg db' today' now telegram_id) <> inl (true, reason).
Proof.
  intros Hrec Had Hnow reason.
  pose proof Hrec as Hdone.
  apply record_ad_watch_done in Hdone
    as (u & Hu & Hads & _ & _ & Hua & _ & _ & _).
  pose proof (record_ad_watch_credits _ _ _ _ _ _ _ _ Hrec Hu) as Hu'.
  assert (Hcool : fst (check_cooldown cfg db' now (users.id u)) = false).
  { unfold check_cooldown, last_watched. rewrite Hua, Hads, filter_app_one.
    simpl. rewrite Z.eqb_refl, Had. simpl. rewrite List.map_app. simpl.
    destruct (sql_max_app_ge
                (List.map user_ads.watched_at
                   (List.filter
                      (fun ua => (user_ads.user_id ua =? users.id u)
                                 && existsb
                                      (fun a => ads.id a =? user_ads.ad_id ua)
                                      (db_ads db))
                      (db_user_ads db))) watched_at) as (m & -> & Hm).
    replace (now - m <? AD_COOLDOWN_SECONDS cfg) with true
      by (symmetry; apply Z.ltb_lt; lia).
    reflexivity. }
  unfold can_watch_ad. unfold get_user in Hu'. rewrite Hu'. simpl.
  destruct (_ || _); [discriminate|].
  destruct (sql_first _ (db_daily_limits db')).
  - destruct (db_settings db' !! "max_ads_per_day") as [[|]|];
      [|discriminate..].
    destruct (_ <=? _)%float; [discriminate|].
    destruct (db_settings db' !! "daily_earning_limit") as [[|]|];
      [|discriminate..].
    destruct (is_NULL _); [discriminate|].
    destruct (_ <=? _)%float; [discriminate|].
    simpl. destruct (check_cooldown cfg db' now (users.id u)).
    simpl in Hcool. subst. discriminate.
  - simpl. destruct (check_cooldown cfg db' now (users.id u)).
    simpl in Hcool. subst. discriminate.
Qed.

(** A reward for an ad of the [ads] table starts the cooldown: as long as
    less than [Config.AD_COOLDOWN_SECONDS] have passed since its
    [watched_at], [can_watch_ad] does not allow the account another one,
    whatever the day and the counters. *)
Theorem record_ad_watch_starts_cooldown
  cfg db today watched_at telegram_id ad_id amount db' today' now :
  record_ad_watch db today watched_at telegram_id ad_id amount
  = Return tt db' ->
  existsb (fun a => ads.id a =? ad_id) (db_ads db) = true ->
  now - watched_at < AD_COOLDOWN_SECONDS cfg ->
  forall reason,
    seen (can_watch_ad cfg db' today' now telegram_id) <> inl (true, reason).
Proof. apply record_ad_watch_then_cooldown. Qed.

Lemma record_ad_watch_starts_cooldown_witness :
  seen (can_watch_ad default_Config Scenario.watched "2024-01-02" 1059
          Scenario.alice) <> inl (true, "").
Proof.
  apply (record_ad_watch_starts_cooldown default_Config Scenario.registered
           "2024-01-01" 1000 Scenario.alice 1 5.0%float Scenario.watched).
  - vm_compute. reflexivity.
  - vm_compute. reflexivity.
  - vm_compute. reflexivity.
Defined.

(** A reward recorded for an ad id that the [ads] table does not have starts
    no cooldown: [MAX(watched_at)] is taken over the join with [ads] and is
    what it was, for every user. *)
Theorem record_ad_watch_unknown_ad
  db today watched_at telegram_id ad_id amount db' :
  record_ad_watch db today watched_at telegram_id ad_id amount
  = Return tt db' ->
  existsb (fun a => ads.id a =? ad_id) (db_ads db) = false ->
  forall user_id, last_watched db' user_id = last_watched db user_id.
Proof.
  intros Hrec Had user_id.
  apply record_ad_watch_done in Hrec
    as (u & _ & Hads & _ & _ & Hua & _ & _ & _).
  unfold last_watched. rewrite Hua, Hads, filter_app_one. simpl.
  rewrite Had, andb_false_r. now rewrite app_nil_r.
Qed.

Lemma record_ad_watch_unknown_ad_witness :
  last_watched
    (after Scenario.registered
       (record_ad_watch Scenario.registered "2024-01-01" 1000 Scenario.alice 9
          5.0%float)) 1 = None.
Proof.
  rewrite (record_ad_watch_unknown_ad Scenario.registered "2024-01-01" 1000
             Scenario.alice 9 5.0%float
             (after Scenario.registered
                (record_ad_watch Scenario.registered "2024-01-01" 1000
                   Scenario.alice 9 5.0%float))).
  - vm_compute. reflexivity.
  - vm_compute. reflexivity.
  - vm_compute. reflexivity.
Defined.



(** ** The [watch_ad] handler *)

(** A watch that goes through pays what the [earnings] column of the drawn
    ad says: the ad is one of the active ads, its earnings go on the balance
    and on [total_earned] of the account, and an earning event of type ['ad']
    with that amount is appended. *)
Theorem watch_ad_pays_the_ad
  cfg db today now today' current_timestamp telegram_id pick ad db' :
  watch_ad cfg db today now today' current_timestamp telegram_id pick
  = Return (Watched ad) db' ->
  In ad (get_available_ads db)
  /\ exists u,
       get_user db telegram_id = Some u
       /\ get_user db' telegram_id = Some (users.credit (ads.earnings ad) u)
       /\ db_earnings db'
          = (db_earnings db ++
             [ {| earnings.id :=
                    next_id (List.map earnings.id (db_earnings db));
                  earnings.user_id := users.id u;
                  earnings.amount := ads.earnings ad;
                  earnings.type := "ad";
                  earnings.description := "Ad watch" |} ])%list.
Proof.
  unfold watch_ad.
  destruct (can_watch_ad cfg db today now telegram_id) as [[[|] r] d|e];
    try discriminate.
  destruct (get_available_ads db) as [|a rest] eqn:Hads; [discriminate|].
  set (chosen := nth (pick mod length (a :: rest))%nat (a :: rest) a).
  destruct (record_ad_watch db today' current_timestamp telegram_id
              (ads.id chosen) (ads.earnings chosen)) as [[] d'|e] eqn:Hrec;
    [|discriminate].
  intros H. injection H as <- <-. split.
  - apply nth_In. apply Nat.mod_upper_bound. discriminate.
  - pose proof Hrec as Hdone.
    apply record_ad_watch_done in Hdone
      as (u & Hu & _ & _ & _ & _ & _ & He & _).
    exists u. split; [exact Hu|]. split; [|exact He].
    now apply (record_ad_watch_credits _ _ _ _ _ _ _ _ Hrec).
Qed.

Lemma watch_ad_pays_the_ad_witness :
  balance_of
    (after Scenario.registered
       (watch_ad default_Config Scenario.registered "2024-01-01" 1000
          "2024-01-01" 1000 Scenario.alice 4)) Scenario.alice
  = Some (0.0 + 5.0)%float.
Proof.
  destruct (watch_ad_pays_the_ad default_Config Scenario.registered
              "2024-01-01" 1000 "2024-01-01" 1000 Scenario.alice 4
              {| ads.id := 2; ads.title := "E-commerce Offer";
                 ads.description := "Special discount offer for online shopping";
                 ads.earnings := 5.0%float; ads.is_active := 1 |}
              (after Scenario.registered
                 (watch_ad default_Config Scenario.registered "2024-01-01"
                    1000 "2024-01-01" 1000 Scenario.alice 4)))
    as (_ & u & Hu & Hg & _).
  - vm_compute. reflexivity.
  - unfold balance_of. rewrite Hg.
    vm_compute in Hu. injection Hu as <-. reflexivity.
Defined.

(** After a watch that went through, the handler lets no other through for
    the same account while the cooldown runs: called again less than
    [Config.AD_COOLDOWN_SECONDS] after the [watched_at] of the first, it
    leaves the file as it is. *)
Theorem watch_ad_twice
  cfg db today now today' current_timestamp telegram_id pick ad db'
  today2 now2 today2' current_timestamp2 pick2 :
  watch_ad cfg db today now today' current_timestamp telegram_id pick
  = Return (Watched ad) db' ->
  now2 - current_timestamp < AD_COOLDOWN_SECONDS cfg ->
  after db'
    (watch_ad cfg db' today2 now2 today2' current_timestamp2 telegram_id pick2)
  = db'.
Proof.
  intros H Hnow.
  assert (Hno : forall reason,
            seen (can_watch_ad cfg db' today2 now2 telegram_id)
            <> inl (true, reason)).
  { revert H. unfold watch_ad.
    destruct (can_watch_ad cfg db today now telegram_id) as [[[|] r] d|e];
      try discriminate.
    destruct (get_available_ads db) as [|a rest] eqn:Hads; [discriminate|].
    set (chosen := nth (pick mod length (a :: rest))%nat (a :: rest) a).
    destruct (record_ad_watch db today' current_timestamp telegram_id
                (ads.id chosen) (ads.earnings chosen)) as [[] d'|e] eqn:Hrec;
      [|discriminate].
    intros H. injection H as _ <-.
    apply (record_ad_watch_then_cooldown cfg db today' current_timestamp
             telegram_id (ads.id chosen) (ads.earnings chosen));
      [exact Hrec | | exact Hnow].
    apply existsb_exists. exists chosen. split; [|apply Z.eqb_refl].
    assert (Hin : In chosen (get_available_ads db)).
    { rewrite Hads. apply nth_In. apply Nat.mod_upper_bound. discriminate. }
    unfold get_available_ads in Hin. now apply filter_In in Hin. }
  unfold watch_ad.
  destruct (can_watch_ad cfg db' today2 now2 telegram_id) as [[[|] r] d|e];
    try reflexivity.
  exfalso. now apply (Hno r).
Qed.

Lemma watch_ad_twice_witness :
  after Scenario.watched
    (watch_ad default_Config Scenario.watched "2024-01-01" 1030 "2024-01-01"
       1030 Scenario.alice 0)
  = Scenario.watched.
Proof.
  apply (watch_ad_twice default_Config Scenario.registered "2024-01-01" 1000
           "2024-01-01" 1000 Scenario.alice 0
           {| ads.id := 1; ads.title := "Mobile App Review";
              ads.description := "Watch this 30-second ad about new mobile app";
              ads.earnings := 5.0%float; ads.is_active := 1 |}).
  - vm_compute. reflexivity.
  - vm_compute. reflexivity.
Defined.

(** What a setting other than the two caps is worth to [watch_ad]: nothing.
    Stored under any other key, [ad_earning_rate] and [ad_cooldown]
    included, a value changes neither the answer of the handler nor the
    accounts and the earning events it leaves. *)
Theorem watch_ad_ignores_other_settings
  cfg db key value today now today' current_timestamp telegram_id pick :
  key <> "max_ads_per_day" ->
  key <> "daily_earning_limit" ->
  seen (watch_ad cfg (after db (update_setting db key value)) today now
          today' current_timestamp telegram_id pick)
  = seen (watch_ad cfg db today now today' current_timestamp telegram_id pick)
  /\ db_users
       (after (after db (update_setting db key value))
          (watch_ad cfg (after db (update_setting db key value)) today now
             today' current_timestamp telegram_id pick))
     = db_users
         (after db
            (watch_ad cfg db today now today' current_timestamp telegram_id
               pick))
  /\ db_earnings
       (after (after db (update_setting db key value))
          (watch_ad cfg (after db (update_setting db key value)) today now
             today' current_timestamp telegram_id pick))
     = db_earnings
         (after db
            (watch_ad cfg db today now today' current_timestamp telegram_id
               pick))
  /\ db_daily_limits
       (after (after db (update_setting db key value))
          (watch_ad cfg (after db (update_setting db key value)) today now
             today' current_timestamp telegram_id pick))
     = db_daily_limits
         (after db
            (watch_ad cfg db today now today' current_timestamp telegram_id
               pick)).
Proof.
  intros H1 H2. unfold watch_ad, update_setting, after.
  set (db1 := with_settings (<[key:=value]> (db_settings db)) db).
  assert (Hcan : can_watch_ad cfg db1 today now telegram_id
                 = match can_watch_ad cfg db today now telegram_id with
                   | Return x _ => Return x db1
                   | Raise e => Raise e
                   end).
  { unfold can_watch_ad, db1. simpl.
    rewrite !lookup_insert_ne by assumption.
    destruct (sql_first (by_telegram_id telegram_id) (db_users db));
      [|reflexivity].
    destruct (_ || _); [reflexivity|].
    destruct (sql_first _ (db_daily_limits db)); [|reflexivity].
    destruct (db_settings db !! "max_ads_per_day") as [[|]|];
      [|reflexivity..].
    destruct (_ <=? _)%float; [reflexivity|].
    destruct (db_settings db !! "daily_earning_limit") as [[|]|];
      [|reflexivity..].
    destruct (is_NULL _); [reflexivity|].
    destruct (_ <=? _)%float; reflexivity. }
  rewrite Hcan.
  destruct (can_watch_ad cfg db today now telegram_id) as [[[|] r] d|e];
    try (repeat split; reflexivity).
  change (get_available_ads db1) with (get_available_ads db).
  destruct (get_available_ads db) as [|a rest];
    [repeat split; reflexivity|].
  unfold record_ad_watch. change (db_users db1) with (db_users db).
  destruct (sql_first (by_telegram_id telegram_id) (db_users db));
    [|repeat split; reflexivity].
  destruct (is_NULL _); repeat split; reflexivity.
Qed.

Lemma watch_ad_ignores_other_settings_witness :
  seen (watch_ad default_Config
          (after Scenario.registered
             (update_setting Scenario.registered "ad_earning_rate"
                (Number 50.0%float)))
          "2024-01-01" 1000 "2024-01-01" 1000 Scenario.alice 0)
  = seen (watch_ad default_Config Scenario.registered "2024-01-01" 1000
            "2024-01-01" 1000 Scenario.alice 0).
Proof.
  apply (watch_ad_ignores_other_settings default_Config Scenario.registered
           "ad_earning_rate" (Number 50.0%float) "2024-01-01" 1000
           "2024-01-01" 1000 Scenario.alice 0); discriminate.
Defined.

(** ** The [start] handler *)

(** Once [start] has answered for a user, it registers nothing more for
    that user: called again, with whatever name and referral code, it
    answers and leaves the file as it is. *)
Theorem start_again db telegram_id username args hex6 reply db1 :
  start db telegram_id username args hex6 = Return reply db1 ->
  forall username' args' hex6',
    exists reply',
      start db1 telegram_id username' args' hex6' = Return reply' db1.
Proof.
  intros H username' args' hex6'.
  assert (Hu : exists u, get_user db1 telegram_id = Some u).
  { revert H. unfold start.
    destruct (get_user db telegram_id) as [u|] eqn:Hu.
    - intros H. injection H as _ <-. eauto.
    - destruct (register_user db telegram_id username _ hex6) as [b db'|e];
        [|discriminate].
      destruct (get_user db' telegram_id) as [u|] eqn:Hu'; [|discriminate].
      intros H. injection H as _ <-. eauto. }
  destruct Hu as [u Hu]. unfold start. rewrite Hu. eauto.
Qed.

Lemma start_again_witness :
  exists reply',
    start Scenario.registered Scenario.alice "alice" ["REF100A1B2C3"] "0DDBA1"
    = Return reply' Scenario.registered.
Proof.
  apply (start_again Scenario.opened Scenario.alice "alice" [] "A1B2C3"
           Welcome Scenario.registered).
  vm_compute. reflexivity.
Defined.

(** A new user who arrives with the referral code of an account is not
    registered: [start] ends in an exception, whatever else is in the file.
    (The referrer must have a [telegram_id] other than 0 for [register_user]
    to take it as a referrer at all.) *)
Theorem start_referred_raises db telegram_id username code rest hex6 referrer :
  get_user db telegram_id = None ->
  sql_first (fun u => (users.referral_code u =? code)%string) (db_users db)
  = Some referrer ->
  users.telegram_id referrer <> 0 ->
  exists e, start db telegram_id username (code :: rest) hex6 = Raise e.
Proof.
  intros Hn Hc Hr. unfold start. rewrite Hn, Hc. simpl.
  destruct (register_user_referred_fails db telegram_id username
              (users.telegram_id referrer) hex6 Hr) as [Hnot Hsame].
  destruct (register_user db telegram_id username
              (Some (users.telegram_id referrer)) hex6) as [[|] db'|e].
  - now destruct (Hnot db').
  - simpl in Hsame. subst db'. rewrite Hn. eauto.
  - eauto.
Qed.

Lemma start_referred_raises_witness :
  exists e,
    start Scenario.registered Scenario.bob "bob" ["REF100A1B2C3"] "F00BA4"
    = Raise e.
Proof.
  apply (start_referred_raises Scenario.registered Scenario.bob "bob"
           "REF100A1B2C3" [] "F00BA4"
           {| users.id := 1; users.telegram_id := 100;
              users.username := "alice";
              users.referral_code := "REF100A1B2C3";
              users.referred_by := None;
              users.balance := 0.0%float;
              users.total_earned := 0.0%float;
              users.total_withdrawn := 0.0%float;
              users.is_banned := 0 |}).
  - vm_compute. reflexivity.
  - vm_compute. reflexivity.
  - discriminate.
Defined.

(** ** The dispatch of button presses *)

Lemma prefix_app (p s : string) :
  String.prefix p s = true -> exists t, s = (p ++ t)%string.
Proof.
  revert s. induction p as [|c p IH]; intros s.
  - exists s. reflexivity.
  - destruct s as [|c' s]; cbn [String.prefix]; [discriminate|].
    destruct (ascii_dec c c') as [->|]; [|discriminate].
    intros H. destruct (IH _ H) as [t ->]. exists t. reflexivity.
Qed.

(** The data of the [Approve] and [Reject] buttons of the administrator,
    [withdraw_action_approve_<id>] and [withdraw_action_reject_<id>], begin
    with [withdraw_]: [handle_callback] takes them, as any data that begins
    with [withdraw_action_], for the choice of a payment method, the method
    being ["action"]. *)
Theorem handle_callback_withdraw_action data :
  String.prefix "withdraw_action_" data = true ->
  handle_callback data = Set_withdraw_method "action".
Proof.
  intros H. apply prefix_app in H as [t ->]. vm_compute. reflexivity.
Qed.

Lemma handle_callback_withdraw_action_witness :
  handle_callback "withdraw_action_approve_1" = Set_withdraw_method "action"
  /\ handle_callback "withdraw_action_reject_1" = Set_withdraw_method "action".
Proof.
  split; apply handle_callback_withdraw_action; vm_compute; reflexivity.
Defined.

(** [handle_admin_callback] is called from [handle_callback] only, and on no
    data that [handle_callback] passes on does it take the branch that
    approves or rejects a withdrawal. *)
Theorem handle_admin_callback_never_acts data :
  handle_callback data = Handle_admin_callback ->
  forall parts, handle_admin_callback data <> Withdraw_action parts.
Proof.
  unfold handle_callback.
  repeat (destruct (data =? _)%string; [discriminate|]).
  destruct (String.prefix "withdraw_" data); [discriminate|].
  destruct (String.prefix "admin_" data) eqn:Ha; [|discriminate].
  intros _ parts. apply prefix_app in Ha as [t ->].
  unfold handle_admin_callback.
  change (String.prefix "withdraw_action_" ("admin_" ++ t)) with false.
  repeat (destruct (_ =? _)%string; [discriminate|]).
  discriminate.
Qed.

Lemma handle_admin_callback_never_acts_witness :
  handle_admin_callback "admin_withdrawals" <> Withdraw_action [].
Proof.
  apply handle_admin_callback_never_acts. vm_compute. reflexivity.
Defined.

(** ** Settings *)

Lemma insert_or_ignore_keeps key value (m : gmap string setting) k x :
  m !! k = Some x -> insert_or_ignore key value m !! k = Some x.
Proof.
  intros Hk. unfold insert_or_ignore.
  destruct (m !! key) eqn:Hkey; [exact Hk|].
  rewrite lookup_insert_ne; [exact Hk | congruence].
Qed.

Lemma insert_or_ignore_there key value (m : gmap string setting) :
  is_Some (insert_or_ignore key value m !! key).
Proof.
  unfold insert_or_ignore. destruct (m !! key) eqn:Hkey.
  - rewrite Hkey. eauto.
  - rewrite lookup_insert_eq. eauto.
Qed.

Lemma insert_or_ignore_present key value (m : gmap string setting) :
  is_Some (m !! key) -> insert_or_ignore key value m = m.
Proof. intros [x Hx]. unfold insert_or_ignore. now rewrite Hx. Qed.

Lemma insert_or_ignore_is_Some key value (m : gmap string setting) k :
  is_Some (m !! k) -> is_Some (insert_or_ignore key value m !! k).
Proof. intros [x Hx]. exists x. now apply insert_or_ignore_keeps. Qed.

(** A table without a row is empty. *)
Lemma sql_count_all_0 {A : Type} (t : list A) :
  (sql_count (fun _ => true) t =? 0) = true -> t = [].
Proof.
  unfold sql_count. destruct t as [|a t]; [reflexivity|].
  intros H. apply Z.eqb_eq in H. simpl length in H. lia.
Qed.

(** The settings of the file as [init_database] leaves them, when it does
    not raise: the rate is a number, or there is an ad already. *)
Lemma init_database_settings cfg db :
  is_NULL (AD_EARNING_RATE cfg) = false \/ db_ads db <> [] ->
  db_settings (init_database cfg db)
  = insert_or_ignore "ad_cooldown"
      (Number (float_of_int (AD_COOLDOWN_SECONDS cfg)))
      (insert_or_ignore "max_ads_per_day"
         (Number (float_of_int (MAX_ADS_PER_DAY cfg)))
      (insert_or_ignore "daily_earning_limit"
         (Number (DAILY_EARNING_LIMIT cfg))
      (insert_or_ignore "minimum_withdrawal" (Number (MINIMUM_WITHDRAWAL cfg))
      (insert_or_ignore "referral_bonus" (Number (REFERRAL_BONUS cfg))
      (insert_or_ignore "ad_earning_rate" (Number (AD_EARNING_RATE cfg))
         (db_settings db)))))).
Proof.
  intros H. unfold init_database. cbv zeta.
  change (db_ads (with_settings _ db)) with (db_ads db).
  destruct (sql_count (fun _ => true) (db_ads db) =? 0) eqn:Hc;
    [|reflexivity].
  destruct H as [->|H]; [reflexivity|].
  now apply sql_count_all_0 in Hc.
Qed.

(** [INSERT OR IGNORE] overwrites nothing. *)
Lemma init_database_keeps cfg db key value :
  db_settings db !! key = Some value ->
  db_settings (init_database cfg db) !! key = Some value.
Proof.
  intros H. unfold init_database. cbv zeta.
  destruct (_ =? 0); [destruct (is_NULL _); [exact H|]|];
    simpl; now repeat apply insert_or_ignore_keeps.
Qed.

(** What the administrator has stored survives a restart: [init_database]
    leaves every setting that is there at its value, whatever the
    configuration of the process says. *)
Theorem init_database_keeps_settings cfg db key value :
  db_settings db !! key = Some value ->
  db_settings (init_database cfg db) !! key = Some value.
Proof. apply init_database_keeps. Qed.

Lemma init_database_keeps_settings_witness :
  db_settings (init_database default_Config Scenario.cooldown_10)
    !! "ad_cooldown" = Some (Number 10.0%float).
Proof.
  apply init_database_keeps_settings. vm_compute. reflexivity.
Defined.

(** After an [init_database] that does not raise the six settings are
    there, on any file. *)
Lemma init_database_seeds cfg db key :
  is_NULL (AD_EARNING_RATE cfg) = false \/ db_ads db <> [] ->
  In key setting_keys -> is_Some (db_settings (init_database cfg db) !! key).
Proof.
  intros H. rewrite (init_database_settings cfg db H).
  unfold setting_keys. simpl.
  intros [<-|[<-|[<-|[<-|[<-|[<-|[]]]]]]];
    repeat (apply insert_or_ignore_there
            || (apply insert_or_ignore_is_Some)).
Qed.

(** Running [init_database] again, be it with another configuration,
    changes nothing: the second run finds every setting and at least one
    ad.  The first run is one that does not raise: its rate is a number, or
    the file had an ad already. *)
Theorem init_database_again cfg cfg' db :
  is_NULL (AD_EARNING_RATE cfg) = false \/ db_ads db <> [] ->
  init_database cfg' (init_database cfg db) = init_database cfg db.
Proof.
  intros Hran.
  assert (Hads : (sql_count (fun _ => true) (db_ads (init_database cfg db))
                  =? 0) = false).
  { unfold init_database. cbv zeta.
    change (db_ads (with_settings _ db)) with (db_ads db).
    destruct (sql_count (fun _ => true) (db_ads db) =? 0) eqn:H;
      [|exact H].
    destruct Hran as [->|Hran]; [reflexivity|].
    now apply sql_count_all_0 in H. }
  assert (Hkey : forall k, In k setting_keys ->
            is_Some (db_settings (init_database cfg db) !! k))
    by (intros k; now apply init_database_seeds).
  assert (Hsame : forall d, with_settings (db_settings d) d = d)
    by (intros []; reflexivity).
  unfold init_database at 1. cbv zeta.
  rewrite (insert_or_ignore_present "ad_earning_rate")
    by (apply Hkey; unfold setting_keys; simpl; tauto).
  rewrite (insert_or_ignore_present "referral_bonus")
    by (apply Hkey; unfold setting_keys; simpl; tauto).
  rewrite (insert_or_ignore_present "minimum_withdrawal")
    by (apply Hkey; unfold setting_keys; simpl; tauto).
  rewrite (insert_or_ignore_present "daily_earning_limit")
    by (apply Hkey; unfold setting_keys; simpl; tauto).
  rewrite (insert_or_ignore_present "max_ads_per_day")
    by (apply Hkey; unfold setting_keys; simpl; tauto).
  rewrite (insert_or_ignore_present "ad_cooldown")
    by (apply Hkey; unfold setting_keys; simpl; tauto).
  now rewrite Hsame, Hads.
Qed.

Lemma init_database_again_witness :
  init_database default_Config Scenario.opened = Scenario.opened.
Proof.
  apply (init_database_again default_Config default_Config empty_Store).
  left. vm_compute. reflexivity.
Defined.

(** The run that is left out: with a rate that is NaN the first
    [init_database] on an empty file raises and leaves it empty, and the
    next one, with the default configuration, does change it. *)
Lemma init_database_after_raise :
  init_database
    {| AD_EARNING_RATE := nan; REFERRAL_BONUS := 10.0%float;
       MINIMUM_WITHDRAWAL := 100.0%float; DAILY_EARNING_LIMIT := 50.0%float;
       AD_COOLDOWN_SECONDS := 60; MAX_ADS_PER_DAY := 10 |} empty_Store
  = empty_Store
  /\ db_ads (init_database default_Config empty_Store)
     <> db_ads empty_Store.
Proof. split; [vm_compute; reflexivity | discriminate]. Qed.

(** A setting that is written is read back, and the others are read as
    before. *)
Theorem get_setting_update_setting db key value k default :
  get_setting (after db (update_setting db key value)) k default
  = if decide (key = k) then Some value else get_setting db k default.
Proof.
  unfold get_setting, update_setting, after. simpl.
  destruct (decide (key = k)) as [->|Hne].
  - now rewrite lookup_insert_eq.
  - now rewrite lookup_insert_ne.
Qed.





(** ** What every state of the file satisfies *)

Lemma NoDup_app_one {A : Type} (l : list A) (x : A) :
  NoDup l -> ~ In x l -> NoDup (l ++ [x]).
Proof.
  intros Hnd Hx. apply NoDup_app. split; [exact Hnd|].
  split; [|apply NoDup_singleton].
  intros y Hy Hin. apply list_elem_of_singleton in Hin. subst y.
  apply Hx. now apply list_elem_of_In.
Qed.

Lemma Forall_In_grow (l : list Z) (x : Z) (xs : list Z) :
  Forall (fun i => In i l) xs -> Forall (fun i => In i (l ++ [x])) xs.
Proof.
  apply List.Forall_impl. intros i Hi. apply in_or_app. now left.
Qed.

Lemma next_id_positive (ids : list Z) : 0 < next_id ids.
Proof.
  unfold next_id. assert (0 <= fold_right Z.max 0 ids); [|lia].
  induction ids as [|i ids IH]; simpl; lia.
Qed.

Lemma next_id_not_in (ids : list Z) : ~ In (next_id ids) ids.
Proof. intros H. apply next_id_above in H. lia. Qed.

Lemma users_conflict_free telegram_id code us :
  users_conflict telegram_id code us = false ->
  ~ In telegram_id (List.map users.telegram_id us).
Proof.
  intros Hc Hin. apply in_map_iff in Hin as (u & Ht & Hu).
  assert (users_conflict telegram_id code us = true); [|congruence].
  apply existsb_exists. exists u. split; [exact Hu|].
  unfold by_telegram_id. now rewrite Ht, Z.eqb_refl.
Qed.

Lemma limit_key_free user_id today ls :
  existsb (limit_of user_id today) ls = false ->
  ~ In (user_id, today) (List.map limit_key ls).
Proof.
  intros He Hin. apply in_map_iff in Hin as (l & Hk & Hl).
  assert (existsb (limit_of user_id today) ls = true); [|congruence].
  apply existsb_exists. exists l. split; [exact Hl|].
  unfold limit_key in Hk. injection Hk as Hu Hd.
  unfold limit_of. now rewrite Hu, Hd, Z.eqb_refl, String.eqb_refl.
Qed.

Lemma found_user_id (c : users.row -> bool) us u :
  sql_first c us = Some u -> In (users.id u) (List.map users.id us).
Proof.
  unfold sql_first. intros H. apply find_some in H as [Hin _].
  now apply in_map.
Qed.

Lemma consistent_empty : consistent empty_Store.
Proof. constructor; simpl; constructor. Qed.

(** Every call keeps the file consistent. *)
Lemma run_consistent db c : consistent db -> consistent (run db c).
Proof.
  intros Hc. pose proof Hc as [Hid Htid Hpos Hwid Hdl Heo Hwo].
  destruct c as [cfg|t n r h|t a|r d|day now t ad x|t a m p|now w s tx|k v
                |ti de e]; simpl.
  - unfold init_database.
    destruct (_ =? 0); [destruct (is_NULL _)|]; constructor; assumption.
  - unfold register_user.
    destruct (users_conflict _ _ _) eqn:Hconf; [exact Hc|].
    destruct (truthy r).
    { unfold add_referral_earning.
      destruct (db_settings db !! "referral_bonus") as [[|]|]; exact Hc. }
    simpl. constructor; simpl; rewrite ?List.map_app; simpl;
      try assumption.
    + apply NoDup_app_one; [assumption | apply next_id_not_in].
    + apply NoDup_app_one; [assumption|].
      now apply users_conflict_free in Hconf.
    + apply Forall_app. split; [assumption|].
      constructor; [apply next_id_positive | constructor].
    + now apply Forall_In_grow.
    + now apply Forall_In_grow.
  - unfold update_balance. simpl.
    constructor; simpl; rewrite ?map_sql_update by reflexivity; assumption.
  - unfold add_referral_earning.
    destruct (db_settings db !! "referral_bonus") as [[bonus|]|];
      [|exact Hc..].
    destruct (sql_first _ (sql_update _ _ _)) as [u|] eqn:Hu; [|exact Hc].
    destruct (is_NULL bonus); [exact Hc|].
    apply found_user_id in Hu. rewrite map_sql_update in Hu by reflexivity.
    simpl. constructor; simpl; rewrite ?List.map_app;
      rewrite ?map_sql_update by reflexivity; simpl; try assumption.
    apply Forall_app. split; [assumption|]. constructor; [exact Hu|constructor].
  - destruct (record_ad_watch db day now t ad x) as [[] db'|e] eqn:Hrec;
      [|exact Hc].
    apply record_ad_watch_done in Hrec
      as (u & Hu & _ & _ & Hw & _ & Hus & He & Hl & _).
    apply found_user_id in Hu.
    simpl. constructor; rewrite ?Hus, ?He, ?Hw, ?Hl;
      rewrite ?List.map_app; rewrite ?map_sql_update by reflexivity;
      simpl; try assumption.
    + destruct (existsb (limit_of (users.id u) day) (db_daily_limits db))
        eqn:Hex.
      * rewrite map_sql_update by reflexivity. assumption.
      * rewrite List.map_app. simpl.
        apply NoDup_app_one; [assumption|]. now apply limit_key_free.
    + apply Forall_app. split; [assumption|]. constructor; [exact Hu|constructor].
  - unfold create_withdrawal.
    destruct (db_settings db !! "minimum_withdrawal") as [[min|]|];
      [|exact Hc..].
    destruct (_ <? _)%float; [exact Hc|].
    destruct (sql_first _ (db_users db)) as [u|] eqn:Hu; [|exact Hc].
    destruct (is_NULL _); [exact Hc|].
    destruct (_ <? _)%float; [exact Hc|].
    destruct (is_NULL a); [exact Hc|].
    apply found_user_id in Hu.
    simpl. constructor; simpl; rewrite ?List.map_app;
      rewrite ?map_sql_update by reflexivity; simpl; try assumption.
    + apply NoDup_app_one; [assumption | apply next_id_not_in].
    + apply Forall_app. split; [assumption|]. constructor; [exact Hu|constructor].
  - unfold update_withdrawal_status.
    destruct (s =? "rejected")%string; [destruct (sql_first _ _)|];
      simpl; constructor; simpl;
      rewrite ?map_sql_update by reflexivity; assumption.
  - constructor; assumption.
  - unfold add_ad. destruct (is_NULL e); constructor; assumption.
Qed.

Lemma reachable_keeps_consistent db : reachable db -> consistent db.
Proof.
  intros Hr. induction Hr as [cfg Hrate|db c Hr IH].
  - apply (run_consistent empty_Store (Init_database cfg)).
    apply consistent_empty.
  - now apply run_consistent.
Qed.

(** In every state of the file the row ids and the [telegram_id]s of the
    accounts, the ids of the withdrawals and the (account, date) pairs of
    the daily counters are without repetition, and every earning event and
    every withdrawal carries the row id of an account that exists. *)
Theorem reachable_consistent db : reachable db -> consistent db.
Proof. apply reachable_keeps_consistent. Qed.

Lemma reachable_consistent_witness : consistent Scenario.requested.
Proof.
  apply reachable_consistent.
  apply (reachable_run Scenario.rewarded
           (Create_withdrawal Scenario.alice 120.0%float "Bkash"
              "01700000000")).
  apply (reachable_run Scenario.registered
           (Record_ad_watch "2024-01-01" 1000 Scenario.alice 1 150.0%float)).
  apply (reachable_run Scenario.opened
           (Register_user Scenario.alice "alice" None "A1B2C3")).
  apply (reachable_init default_Config). vm_compute. reflexivity.
Defined.

(** No account of the file has a referrer. *)
Lemma reachable_no_referrer db :
  reachable db ->
  Forall (fun r => truthy r = false)
    (List.map users.referred_by (db_users db)).
Proof.
  intros Hr. induction Hr as [cfg Hrate|db c Hr IH].
  - unfold init_database.
    destruct (_ =? 0); [destruct (is_NULL _)|]; simpl; constructor.
  - destruct c as [cfg|t n r h|t a|r d|day now t ad x|t a m p|now w s tx|k v
                  |ti de e]; simpl.
    + unfold init_database.
      destruct (_ =? 0); [destruct (is_NULL _)|]; simpl; exact IH.
    + unfold register_user.
      destruct (users_conflict _ _ _); [exact IH|].
      destruct (truthy r) eqn:Hr'.
      { unfold add_referral_earning.
        destruct (db_settings db !! "referral_bonus") as [[|]|]; exact IH. }
      simpl. rewrite List.map_app. apply Forall_app. split; [exact IH|].
      simpl. constructor; [exact Hr'|constructor].
    + unfold update_balance. simpl. now rewrite map_sql_update by reflexivity.
    + unfold add_referral_earning.
      destruct (db_settings db !! "referral_bonus") as [[bonus|]|];
        [|exact IH..].
      destruct (sql_first _ _); [|exact IH].
      destruct (is_NULL bonus); [exact IH|].
      simpl. now rewrite map_sql_update by reflexivity.
    + unfold record_ad_watch. destruct (sql_first _ _); [|exact IH].
      destruct (is_NULL x); [exact IH|].
      simpl. now rewrite map_sql_update by reflexivity.
    + unfold create_withdrawal.
      destruct (db_settings db !! "minimum_withdrawal") as [[min|]|];
        [|exact IH..].
      destruct (_ <? _)%float; [exact IH|].
      destruct (sql_first _ _); [|exact IH].
      destruct (is_NULL _); [exact IH|].
      destruct (_ <? _)%float; [exact IH|].
      destruct (is_NULL a); [exact IH|].
      simpl. now rewrite map_sql_update by reflexivity.
    + unfold update_withdrawal_status.
      destruct (s =? "rejected")%string; [destruct (sql_first _ _)|];
        simpl; rewrite ?map_sql_update by reflexivity; exact IH.
    + exact IH.
    + unfold add_ad. destruct (is_NULL e); exact IH.
Qed.

(** The referral statistics of the bot never show a referral: in every state
    of the file, [get_referral_stats] counts no referred account and no
    active one, for any id. *)
Theorem reachable_no_referrals db telegram_id :
  reachable db ->
  total (get_referral_stats db telegram_id) = 0
  /\ active (get_referral_stats db telegram_id) = 0.
Proof.
  intros Hr. unfold get_referral_stats.
  destruct (sql_first (by_telegram_id telegram_id) (db_users db)) as [u|] eqn:Hu;
    [|split; reflexivity].
  pose proof (reachable_no_referrer db Hr) as Hnone.
  pose proof (users_id_positive db (reachable_keeps_consistent db Hr))
    as Hpos.
  assert (Hu_pos : 0 < users.id u).
  { apply found_user_id in Hu. rewrite List.Forall_forall in Hpos.
    now apply Hpos. }
  assert (Hreferred : forall v, In v (db_users db) ->
            match users.referred_by v with
            | Some r => r =? users.id u
            | None => false
            end = false).
  { intros v Hv. rewrite List.Forall_forall in Hnone.
    specialize (Hnone (users.referred_by v) (in_map _ _ _ Hv)).
    destruct (users.referred_by v) as [r|]; [|reflexivity].
    simpl in Hnone. apply negb_false_iff, Z.eqb_eq in Hnone. subst r.
    apply Z.eqb_neq. lia. }
  simpl. unfold sql_count.
  rewrite (filter_none _ (db_users db)) by exact Hreferred.
  rewrite (filter_none _ (db_users db)).
  - split; reflexivity.
  - intros v Hv. now rewrite (Hreferred v Hv).
Qed.

Lemma reachable_no_referrals_witness :
  total (get_referral_stats Scenario.registered Scenario.alice) = 0
  /\ active (get_referral_stats Scenario.registered Scenario.alice) = 0.
Proof.
  apply reachable_no_referrals.
  apply (reachable_run Scenario.opened
           (Register_user Scenario.alice "alice" None "A1B2C3")).
  apply (reachable_init default_Config). vm_compute. reflexivity.
Defined.

(** ** Statistics *)

(** [total_withdrawals] of [get_system_stats] counts the withdrawals that are
    in status ['approved'] at the moment: once a withdrawal is given another
    status, ['paid'] or ['rejected'] for instance, its amount is no longer in
    the total. *)
Theorem total_withdrawals_after_status
  db now withdrawal_id status transaction_id today :
  status <> "approved" ->
  total_withdrawals
    (get_system_stats
       (after db
          (update_withdrawal_status db now withdrawal_id status transaction_id))
       today)
  = or_0 (coalesce_sum
            (List.map withdrawals.amount
               (List.filter
                  (fun w => (withdrawals.status w =? "approved")%string
                            && negb (withdrawals.id w =? withdrawal_id))
                  (db_withdrawals db)))).
Proof.
  intros Hs. apply String.eqb_neq in Hs.
  assert (Hws : db_withdrawals
                  (after db
                     (update_withdrawal_status db now withdrawal_id status
                        transaction_id))
                = sql_update (by_withdrawal_id withdrawal_id)
                    (withdrawals.set_status status transaction_id now)
                    (db_withdrawals db)).
  { unfold update_withdrawal_status.
    destruct (status =? "rejected")%string; [destruct (sql_first _ _)|];
      reflexivity. }
  unfold get_system_stats, amounts_in_status. simpl. rewrite Hws. clear Hws.
  do 3 f_equal. unfold sql_update, by_withdrawal_id.
  induction (db_withdrawals db) as [|w ws IH]; simpl; [reflexivity|].
  destruct (withdrawals.id w =? withdrawal_id); simpl.
  - rewrite Hs, andb_false_r. exact IH.
  - rewrite andb_true_r.
    destruct (withdrawals.status w =? "approved")%string; [f_equal|]; exact IH.
Qed.

Lemma total_withdrawals_after_status_witness :
  total_withdrawals (get_system_stats Scenario.approved "2024-01-01")
  = Float 120.0%float
  /\ total_withdrawals
       (get_system_stats
          (after Scenario.approved
             (update_withdrawal_status Scenario.approved 3000 1 "paid" None))
          "2024-01-01")
     = Int 0.
Proof.
  split; [vm_compute; reflexivity|].
  rewrite (total_withdrawals_after_status Scenario.approved 3000 1 "paid" None
             "2024-01-01") by discriminate.
  vm_compute. reflexivity.
Defined.

(** ** More on referrals, registration and the caps *)

(** [add_referral_earning], when no other connection is writing.  With the
    stored bonus a number: the referrer, banned or not, gets the bonus that
    is stored at that moment on balance and [total_earned], and an earning
    event of type ['referral'] naming the referred id is appended; for a
    referrer that is unknown the call ends in an [IntegrityError], and so it
    does for a bonus that is NaN, which [earnings.amount] does not take.
    With a stored text that is no number the call ends in a
    [ValueError]. *)
Theorem add_referral_earning_pays db referrer_id referred_id :
  (db_settings db !! "referral_bonus" = Some Other_text ->
   add_referral_earning false db referrer_id referred_id = Raise ValueError)
  /\ forall bonus,
       db_settings db !! "referral_bonus" = Some (Number bonus) ->
       (forall u,
          get_user db referrer_id = Some u ->
          is_NULL bonus = false ->
          exists db',
            add_referral_earning false db referrer_id referred_id
            = Return tt db'
            /\ get_user db' referrer_id = Some (users.credit bonus u)
            /\ db_earnings db'
               = (db_earnings db ++
                  [ {| earnings.id :=
                         next_id (List.map earnings.id (db_earnings db));
                       earnings.user_id := users.id u;
                       earnings.amount := bonus;
                       earnings.type := "referral";
                       earnings.description :=
                         ("Referral: " ++ str referred_id)%string |} ])%list)
       /\ (get_user db referrer_id = None ->
           add_referral_earning false db referrer_id referred_id
           = Raise IntegrityError)
       /\ (is_NULL bonus = true ->
           add_referral_earning false db referrer_id referred_id
           = Raise IntegrityError).
Proof.
  unfold get_user, add_referral_earning. split.
  - intros ->. reflexivity.
  - intros bonus ->. split; [|split].
    + intros u Hu Hn.
      assert (H : sql_first (by_telegram_id referrer_id)
                    (sql_update (by_telegram_id referrer_id)
                       (users.credit bonus) (db_users db))
                  = Some (users.credit bonus u)).
      { rewrite (get_user_sql_update (by_telegram_id referrer_id)
                   (users.credit bonus) _ _ u) by (reflexivity || exact Hu).
        now rewrite (sql_first_holds _ _ _ Hu). }
      rewrite H, Hn. eexists.
      split; [reflexivity|]. split; [exact H|reflexivity].
    + intros Hn. rewrite sql_first_update by reflexivity. now rewrite Hn.
    + intros ->. now destruct (sql_first _ _).
Qed.

Lemma add_referral_earning_pays_witness :
  (exists db',
     add_referral_earning false Scenario.registered Scenario.alice Scenario.bob
     = Return tt db'
     /\ balance_of db' Scenario.alice = Some (0.0 + 10.0)%float)
  /\ add_referral_earning false Scenario.registered Scenario.bob Scenario.alice
     = Raise IntegrityError
  /\ add_referral_earning false
       (after Scenario.registered
          (update_setting Scenario.registered "referral_bonus"
             (Number nan)))
       Scenario.alice Scenario.bob
     = Raise IntegrityError
  /\ add_referral_earning false
       (after Scenario.registered
          (update_setting Scenario.registered "referral_bonus" Other_text))
       Scenario.alice Scenario.bob
     = Raise ValueError.
Proof.
  split; [|split; [|split]].
  - destruct (add_referral_earning_pays Scenario.registered Scenario.alice
                Scenario.bob) as [_ Hnum].
    destruct (Hnum 10.0%float) as (Hpay & _ & _).
    { vm_compute. reflexivity. }
    destruct (Hpay {| users.id := 1; users.telegram_id := 100;
                      users.username := "alice";
                      users.referral_code := "REF100A1B2C3";
                      users.referred_by := None;
                      users.balance := 0.0%float;
                      users.total_earned := 0.0%float;
                      users.total_withdrawn := 0.0%float;
                      users.is_banned := 0 |})
      as (db' & Hr & Hg & _).
    { vm_compute. reflexivity. }
    { vm_compute. reflexivity. }
    exists db'. split; [exact Hr|]. unfold balance_of. now rewrite Hg.
  - destruct (add_referral_earning_pays Scenario.registered Scenario.bob
                Scenario.alice) as [_ Hnum].
    destruct (Hnum 10.0%float) as (_ & Hnone & _).
    { vm_compute. reflexivity. }
    apply Hnone. vm_compute. reflexivity.
  - destruct (add_referral_earning_pays
                (after Scenario.registered
                   (update_setting Scenario.registered "referral_bonus"
                      (Number nan)))
                Scenario.alice Scenario.bob) as [_ Hnum].
    destruct (Hnum nan) as (_ & _ & Hnan).
    { vm_compute. reflexivity. }
    apply Hnan. vm_compute. reflexivity.
  - destruct (add_referral_earning_pays
                (after Scenario.registered
                   (update_setting Scenario.registered "referral_bonus"
                      Other_text))
                Scenario.alice Scenario.bob) as [Htext _].
    apply Htext. vm_compute. reflexivity.
Defined.

(** A new user who arrives without a referral code is registered and
    welcomed: the account is there with a balance of 0, and the other
    accounts are as they were. *)
Theorem start_registers db telegram_id username hex6 :
  users_conflict telegram_id ("REF" ++ str telegram_id ++ hex6)%string
    (db_users db) = false ->
  exists db',
    start db telegram_id username [] hex6 = Return Welcome db'
    /\ balance_of db' telegram_id = Some 0.0%float
    /\ forall t u, get_user db t = Some u -> get_user db' t = Some u.
Proof.
  intros Hc.
  assert (Hn : get_user db telegram_id = None).
  { unfold get_user, sql_first.
    assert (He : existsb (by_telegram_id telegram_id) (db_users db) = false).
    { revert Hc. apply existsb_weaken. intros r Hr. now rewrite Hr. }
    rewrite existsb_find in He.
    now destruct (List.find (by_telegram_id telegram_id) (db_users db)). }
  destruct (register_user_new_account db telegram_id username None hex6 Hc
              eq_refl) as (db' & Hr & Hg & Hold & _).
  exists db'. unfold start. rewrite Hn, Hr, Hg. simpl.
  split; [reflexivity|]. split; [|exact Hold].
  unfold balance_of. now rewrite Hg.
Qed.

Lemma start_registers_witness :
  exists db',
    start Scenario.registered Scenario.bob "bob" [] "F00BA4"
    = Return Welcome db'
    /\ balance_of db' Scenario.bob = Some 0.0%float.
Proof.
  destruct (start_registers Scenario.registered Scenario.bob "bob" "F00BA4")
    as (db' & Hs & Hb & _).
  - vm_compute. reflexivity.
  - exists db'. split; assumption.
Defined.

(** A watch goes through only below both caps: if the account has a counter
    for the day, neither [ads_watched >= max_ads_per_day] nor
    [earned_today >= daily_earning_limit] holds of it, with the two settings
    as stored when the handler runs. *)
Theorem watch_ad_respects_caps
  cfg db today now today' current_timestamp telegram_id pick ad db' u limit :
  watch_ad cfg db today now today' current_timestamp telegram_id pick
  = Return (Watched ad) db' ->
  get_user db telegram_id = Some u ->
  sql_first (limit_of (users.id u) today) (db_daily_limits db) = Some limit ->
  exists max_ads_per_day daily_earning_limit,
    db_settings db !! "max_ads_per_day" = Some (Number max_ads_per_day)
    /\ db_settings db !! "daily_earning_limit"
       = Some (Number daily_earning_limit)
    /\ (max_ads_per_day <=? float_of_int (daily_limits.ads_watched limit))%float
       = false
    /\ (daily_earning_limit <=? daily_limits.earned_today limit)%float = false.
Proof.
  unfold watch_ad, get_user. intros H Hu Hl.
  destruct (can_watch_ad cfg db today now telegram_id) as [[[|] r] d|e] eqn:Hcan;
    try discriminate.
  clear H. revert Hcan. unfold can_watch_ad. rewrite Hu, Hl.
  destruct (_ || _); [discriminate|].
  destruct (db_settings db !! "max_ads_per_day") as [[m|]|];
    [|discriminate..].
  destruct (m <=? _)%float eqn:Hm; [discriminate|].
  destruct (db_settings db !! "daily_earning_limit") as [[l|]|];
    [|discriminate..].
  destruct (is_NULL _); [discriminate|].
  destruct (l <=? _)%float eqn:Hlim; [discriminate|].
  intros _. exists m, l. repeat split; assumption.
Qed.

Lemma watch_ad_respects_caps_witness :
  exists max_ads_per_day daily_earning_limit,
    db_settings Scenario.watched !! "max_ads_per_day"
    = Some (Number max_ads_per_day)
    /\ db_settings Scenario.watched !! "daily_earning_limit"
       = Some (Number daily_earning_limit)
    /\ (max_ads_per_day <=? float_of_int 1)%float = false
    /\ (daily_earning_limit <=? 5.0)%float = false.
Proof.
  apply (watch_ad_respects_caps default_Config Scenario.watched "2024-01-01"
           1060 "2024-01-01" 1060 Scenario.alice 0
           {| ads.id := 1; ads.title := "Mobile App Review";
              ads.description := "Watch this 30-second ad about new mobile app";
              ads.earnings := 5.0%float; ads.is_active := 1 |}
           (after Scenario.watched
              (watch_ad default_Config Scenario.watched "2024-01-01" 1060
                 "2024-01-01" 1060 Scenario.alice 0))
           (users.credit 5.0%float
              {| users.id := 1; users.telegram_id := 100;
                 users.username := "alice";
                 users.referral_code := "REF100A1B2C3";
                 users.referred_by := None;
                 users.balance := 0.0%float;
                 users.total_earned := 0.0%float;
                 users.total_withdrawn := 0.0%float;
                 users.is_banned := 0 |})
           {| daily_limits.id := 1; daily_limits.user_id := 1;
              daily_limits.date := "2024-01-01";
              daily_limits.ads_watched := 1;
              daily_limits.earned_today := 5.0%float |}).
  - vm_compute. reflexivity.
  - vm_compute. reflexivity.
  - vm_compute. reflexivity.
Defined.
